(** * The Iris classifier container: training script and inference handler

    A shallow embedding of the two Python programs that the notebook
    [lab/01_CreateAlgorithmContainer/01_Creating a Classifier Container.ipynb]
    writes to disk, [training.py] and [inference_handler.py], together with
    the properties the specification states about them.

    Python text is modelled by [string]: a sequence of code points below 256.
    In that range the only characters of Unicode category Nd (the ones the
    regular-expression class [\d] accepts) are the ASCII digits.

    The libraries the programs call (scikit-learn, pandas, numpy, joblib and
    the SageMaker inference toolkit) are outside the repository.  What the
    programs need from them is collected in the class [Libs]; the toolkit's
    request pipeline, which the repository only configures, is modelled from
    the specification and marked as such. *)

From Stdlib Require Import ZArith QArith Ascii String List Bool Lia.
From Stdlib Require Import SpecFloat.
From stdpp Require Import gmap strings list fin_maps.

Local Open Scope Z_scope.

(** ** Exceptions and outcomes of running Python code *)

(** The exception classes the two programs raise or meet.  All of them are
    subclasses of Python's [Exception], so [except Exception] catches each. *)
Inductive exn : Type :=
  | NameError (name : string)
  | ValueError (msg : string)
  | TypeError (msg : string)
  | IndexError (msg : string)
  | FileNotFoundError (path : string)
  | Exception (msg : string)
  | LibraryError (msg : string).

(** [str(e)] *)
Definition str_exn (e : exn) : string :=
  match e with
  | NameError name => "name '" +:+ name +:+ "' is not defined"
  | ValueError msg => msg
  | TypeError msg => msg
  | IndexError msg => msg
  | FileNotFoundError path =>
      "[Errno 2] No such file or directory: '" +:+ path +:+ "'"
  | Exception msg => msg
  | LibraryError msg => msg
  end.

(** A computation returns, raises an exception, or leaves the process through
    [sys.exit] (Python's [SystemExit], which [except Exception] does not
    catch). *)
Inductive result (A : Type) : Type :=
  | Ok (a : A)
  | Raise (e : exn)
  | Exit (status : Z).
Arguments Ok {A} a.
Arguments Raise {A} e.
Arguments Exit {A} status.

(** Stateful code: explicit state passing with an outcome. *)
Definition M (S A : Type) : Type := S -> S * result A.

Definition ret {S A} (a : A) : M S A := fun s => (s, Ok a).
Definition raise {S A} (e : exn) : M S A := fun s => (s, Raise e).
Definition bind {S A B} (c : M S A) (k : A -> M S B) : M S B :=
  fun s =>
    match c s with
    | (s', Ok a) => k a s'
    | (s', Raise e) => (s', Raise e)
    | (s', Exit n) => (s', Exit n)
    end.
Definition modify {S} (f : S -> S) : M S unit := fun s => (f s, Ok tt).
Definition gets {S A} (f : S -> A) : M S A := fun s => (s, Ok (f s)).
Definition lift {S A} (r : result A) : M S A := fun s => (s, r).

(** [try: body  except Exception as e: handler e] *)
Definition try_except {S A} (body : M S A) (handler : exn -> M S A) : M S A :=
  fun s =>
    match body s with
    | (s', Raise e) => handler e s'
    | other => other
    end.

Notation "'let!' x ':=' c 'in' k" := (bind c (fun x => k))
  (at level 10, x name, c at level 100, k at level 200, only parsing).
Notation "c ;> k" := (bind c (fun _ => k))
  (at level 100, k at level 200, right associativity, only parsing).

(** Pure fallible code uses [result] alone. *)
Definition rbind {A B} (r : result A) (k : A -> result B) : result B :=
  match r with
  | Ok a => k a
  | Raise e => Raise e
  | Exit n => Exit n
  end.

(** The status with which the interpreter ends the process: 0 after a normal
    return, 1 after an exception nobody caught, the argument of [sys.exit]
    otherwise. *)
Definition exit_status {A} (r : result A) : Z :=
  match r with
  | Ok _ => 0
  | Raise _ => 1
  | Exit n => n
  end.

(** ** Characters and text *)

Definition newline : ascii := "010"%char.
Definition nl : string := String newline "".

(** [needle in hay] *)
Fixpoint contains (needle hay : string) : bool :=
  String.prefix needle hay ||
  match hay with
  | EmptyString => false
  | String _ rest => contains needle rest
  end.

(** [os.path.join(a, b)] of [posixpath]: an absolute second component
    replaces the first; otherwise the two are joined by exactly one slash. *)
Definition ends_with_slash (a : string) : bool :=
  match String.rev a with
  | String "/" _ => true
  | _ => false
  end.

Definition path_join (a b : string) : string :=
  match b with
  | String "/" _ => b
  | _ =>
      match a with
      | EmptyString => b
      | _ => if ends_with_slash a then a +:+ b else a +:+ "/" +:+ b
      end
  end.

(** ** Regular expressions

    The fragment of [re] that the training script uses, with matching by
    derivatives. *)
Module Regex.

Inductive regex : Type :=
  | Void
  | Eps
  | Class (p : ascii -> bool)
  | Seq (r1 r2 : regex)
  | Alt (r1 r2 : regex)
  | Star (r : regex).

(** [r+] *)
Definition Plus (r : regex) : regex := Seq r (Star r).
(** a literal character *)
Definition Lit (c : ascii) : regex := Class (Ascii.eqb c).

(** [\d] on text of code points below 256 *)
Definition is_digit (c : ascii) : bool :=
  (48 <=? Z.of_N (N_of_ascii c)) && (Z.of_N (N_of_ascii c) <=? 57).

Fixpoint nullable (r : regex) : bool :=
  match r with
  | Void => false
  | Eps => true
  | Class _ => false
  | Seq r1 r2 => nullable r1 && nullable r2
  | Alt r1 r2 => nullable r1 || nullable r2
  | Star _ => true
  end.

Fixpoint der (a : ascii) (r : regex) : regex :=
  match r with
  | Void => Void
  | Eps => Void
  | Class p => if p a then Eps else Void
  | Seq r1 r2 =>
      if nullable r1
      then Alt (Seq (der a r1) r2) (der a r2)
      else Seq (der a r1) r2
  | Alt r1 r2 => Alt (der a r1) (der a r2)
  | Star r1 => Seq (der a r1) (Star r1)
  end.

(** the whole of [s] matches [r] *)
Fixpoint matches (r : regex) (s : list ascii) : bool :=
  match s with
  | [] => nullable r
  | a :: s' => matches (der a r) s'
  end.

(** The words of a regular expression, for reasoning. *)
Inductive lang : regex -> list ascii -> Prop :=
  | lang_eps : lang Eps []
  | lang_class p a : p a = true -> lang (Class p) [a]
  | lang_seq r1 r2 s1 s2 :
      lang r1 s1 -> lang r2 s2 -> lang (Seq r1 r2) (s1 ++ s2)
  | lang_alt_l r1 r2 s : lang r1 s -> lang (Alt r1 r2) s
  | lang_alt_r r1 r2 s : lang r2 s -> lang (Alt r1 r2) s
  | lang_star_nil r : lang (Star r) []
  | lang_star_app r s1 s2 :
      lang r s1 -> lang (Star r) s2 -> lang (Star r) (s1 ++ s2).

(** [s] without its last character, when that character is a newline *)
Definition chomp (s : list ascii) : option (list ascii) :=
  match rev s with
  | c :: front => if Ascii.eqb c newline then Some (rev front) else None
  | [] => None
  end.

(** [re.compile('^' r '$').match(value) is not None].  Without the
    MULTILINE flag [^] is the start of the text and [$] is its end or the
    position just before a newline that ends it. *)
Definition match_anchored (r : regex) (value : string) : bool :=
  let s := list_ascii_of_string value in
  matches r s ||
  match chomp s with
  | Some front => matches r front
  | None => false
  end.

End Regex.

(** ** The builtins [int] and [float] on text *)

Definition digit_value (c : ascii) : Z := Z.of_N (N_of_ascii c) - 48.

(** the number a run of decimal digits denotes *)
Definition digits_value (ds : list ascii) : Z :=
  fold_left (fun acc c => 10 * acc + digit_value c) ds 0.

Definition all_digits (ds : list ascii) : bool :=
  match ds with
  | [] => false
  | _ => forallb Regex.is_digit ds
  end.

(** the white space below code point 256 that [int] and [float] strip from
    both ends *)
Definition is_space (c : ascii) : bool :=
  let n := Z.of_N (N_of_ascii c) in
  (n =? 32) || ((9 <=? n) && (n <=? 13)) || ((28 <=? n) && (n <=? 31))
  || (n =? 133) || (n =? 160).

Fixpoint lstrip (s : list ascii) : list ascii :=
  match s with
  | c :: s' => if is_space c then lstrip s' else s
  | [] => []
  end.

Definition strip (s : list ascii) : list ascii :=
  rev (lstrip (rev (lstrip s))).

Definition split_sign (s : list ascii) : Z * list ascii :=
  match s with
  | c :: s' =>
      if Ascii.eqb c "+" then (1, s')
      else if Ascii.eqb c "-" then (-1, s')
      else (1, s)
  | [] => (1, [])
  end.

(** [int(text)]: white space stripped, an optional sign, decimal digits.
    (Digit grouping with underscores and the limit that later interpreters
    put on the number of digits are not modelled; the script calls [int]
    only on text made of digits and at most a final newline.) *)
Definition py_int (text : string) : result Z :=
  let (sign, body) := split_sign (strip (list_ascii_of_string text)) in
  if all_digits body then Ok (sign * digits_value body)
  else Raise (ValueError
         ("invalid literal for int() with base 10: '" +:+ text +:+ "'")).

(** the digits before and after the first dot *)
Fixpoint split_dot (s : list ascii) : list ascii * option (list ascii) :=
  match s with
  | [] => ([], None)
  | c :: s' =>
      if Ascii.eqb c "."%char then ([], Some s')
      else let (ip, fp) := split_dot s' in (c :: ip, fp)
  end.

(** A Python [float]: an IEEE 754 binary64 number, with 53 bits of
    mantissa; [S754_finite s m e] is [m * 2 ^ e], negated when [s] holds. *)
Definition binary64 : Type := spec_float.

(** The binary64 number nearest to [numerator / denominator], ties going to
    the even mantissa; infinity when the quotient is beyond the largest
    binary64 number, zero when it is too small: the correctly rounded
    quotient of the two whole numbers. *)
Definition round_binary64
    (negative : bool) (numerator : Z) (denominator : positive) : binary64 :=
  match numerator with
  | Z.pos m =>
      SFdiv 53 1024 (S754_finite negative m 0)
                    (S754_finite false denominator 0)
  | _ => S754_zero negative
  end.

(** [float(text)] for plain decimal literals: white space stripped, an
    optional sign, digits with an optional fraction.  The literal denotes
    the fraction of its digits over a power of ten, and [float] returns the
    binary64 number nearest to it, without raising when it is infinity.
    (Exponents, [inf] and [nan] are not modelled; the script calls [float]
    only on text of the form digits, dot, digits.) *)
Definition py_float (text : string) : result binary64 :=
  let (sign, body) := split_sign (strip (list_ascii_of_string text)) in
  let bad := Raise (ValueError
         ("could not convert string to float: '" +:+ text +:+ "'")) in
  match split_dot body with
  | (ip, None) =>
      if all_digits ip
      then Ok (round_binary64 (sign <? 0) (digits_value ip) 1)
      else bad
  | (ip, Some fp) =>
      if (forallb Regex.is_digit ip && forallb Regex.is_digit fp
          && negb (Nat.eqb (length ip + length fp) 0))%bool
      then Ok (round_binary64 (sign <? 0) (digits_value (ip ++ fp))
                              (Z.to_pos (10 ^ Z.of_nat (length fp))))
      else bad
  end.

(** ** What the programs use from their libraries *)

(** A JSON value as [json.load] returns it: text, or anything else (numbers,
    booleans, null, arrays, objects), on which a compiled pattern's [match]
    raises [TypeError]. *)
Inductive jvalue : Type :=
  | JString (s : string)
  | JOther.

(** A hyperparameter after coercion. *)
Inductive value : Type :=
  | VFloat (f : binary64)
  | VInt (z : Z)
  | VStr (s : string).

Class Libs : Type := {
  (** a number in a table or an array *)
  cell : Type;
  (** [RandomForestClassifier()], before and after [fit] *)
  Estimator : Type;
  Model : Type;
  new_classifier : Estimator;
  (** [model.set_params] applied to the hyperparameters as keyword
      arguments *)
  set_params : Estimator -> gmap string value -> result Estimator;
  (** [model.fit(X, Y)] *)
  fit : Estimator -> list (list cell) -> list cell -> result Model;
  (** [format(model.score(X, Y))]: the accuracy as printed *)
  score : Model -> list (list cell) -> list cell -> result string;
  (** [model.predict(X)] on a two-dimensional array given by its rows *)
  predict : Model -> list (list cell) -> result (list cell);
  (** a number written with [%s], and read back from CSV text *)
  show_cell : cell -> string;
  parse_cell : string -> option cell;
  (** [traceback.format_exc()] while the exception is being handled *)
  format_exc : exn -> string
}.

(** the character [a] occurs in [text] *)
Fixpoint occurs (a : ascii) (text : string) : bool :=
  match text with
  | EmptyString => false
  | String c rest => Ascii.eqb c a || occurs a rest
  end.

(** The characters that reading CSV treats specially: the comma and the
    newline, and the blank, the carriage return and the comment sign (whose
    treatment by numpy the model of the decoder leaves out). *)
Definition csv_special : list ascii :=
  [","%char; newline; " "%char; "013"%char; "#"%char].

(** What the proofs about CSV text and about [predict] rely on. *)
Class LibsLaws (L : Libs) : Prop := {
  (** scikit-learn returns one label per sample *)
  predict_length : forall m X ys,
    predict m X = Ok ys -> length ys = length X;
  (** a printed number reads back as itself *)
  parse_show : forall c, parse_cell (show_cell c) = Some c;
  (** a printed number is not empty and holds no special character *)
  show_nonempty : forall c, show_cell c <> EmptyString;
  show_clean : forall c,
    forallb (fun a => negb (occurs a (show_cell c))) csv_special = true
}.

(** ** The file system and the standard streams *)

(** A file, by what its reader makes of it: a JSON object (its members as the
    dict that [json.load] builds lists them, each key once), a headerless
    CSV table, a pickled model, or text. *)
Inductive file_content `{Libs} : Type :=
  | FJson (object : list (string * jvalue))
  | FTable (rows : list (list cell))
  | FPickle (m : Model)
  | FText (text : string).
Arguments FJson {_} object.
Arguments FTable {_} rows.
Arguments FPickle {_} m.
Arguments FText {_} text.

Record World `{Libs} : Type := mkWorld {
  files : gmap string file_content;
  dirs : gmap string (list string);
  (** what the program has printed, line by line; what the interpreter
      itself reports when it ends on an uncaught exception is not recorded *)
  stdout : list string;
  stderr : list string;
  (** how often [fit] has been called *)
  fit_calls : nat
}.
Arguments mkWorld {_} files dirs stdout stderr fit_calls.

Section effects.
Context `{L : Libs}.

(** [print(line)] and [print(line, file=sys.stderr)] *)
Definition print (line : string) : M World unit :=
  modify (fun w => mkWorld (files w) (dirs w) (stdout w ++ [line])
                           (stderr w) (fit_calls w)).
Definition print_err (line : string) : M World unit :=
  modify (fun w => mkWorld (files w) (dirs w) (stdout w)
                           (stderr w ++ [line]) (fit_calls w)).

(** [open(path, 'r')] / [open(path, 'rb')] and reading the whole file *)
Definition read_file (path : string) : M World file_content :=
  fun w =>
    match files w !! path with
    | Some c => (w, Ok c)
    | None => (w, Raise (FileNotFoundError path))
    end.

(** [open(path, 'w')] / [open(path, 'wb')] and writing the whole file.
    (A missing parent directory is not modelled.) *)
Definition write_file (path : string) (c : file_content) : M World unit :=
  modify (fun w => mkWorld (<[path := c]> (files w)) (dirs w) (stdout w)
                           (stderr w) (fit_calls w)).

(** [os.listdir(path)] *)
Definition listdir (path : string) : M World (list string) :=
  fun w =>
    match dirs w !! path with
    | Some names => (w, Ok names)
    | None => (w, Raise (FileNotFoundError path))
    end.

Definition count_fit : M World unit :=
  modify (fun w => mkWorld (files w) (dirs w) (stdout w) (stderr w)
                           (S (fit_calls w))).

(** [json.load(file)] *)
Definition json_load (c : file_content) : result (list (string * jvalue)) :=
  match c with
  | FJson object => Ok object
  | _ => Raise (LibraryError "json.decoder.JSONDecodeError")
  end.

(** [pd.read_csv(file, sep=',', header=None)] *)
Definition read_csv (path : string) : M World (list (list cell)) :=
  let! c := read_file path in
  match c with
  | FTable [] =>
      raise (LibraryError "pandas.errors.EmptyDataError")
  | FTable rows => ret rows
  | _ => raise (LibraryError "pandas.errors.ParserError")
  end.

(** [joblib.load(file)] *)
Definition joblib_load (c : file_content) : result Model :=
  match c with
  | FPickle m => Ok m
  | _ => Raise (LibraryError "pickle.UnpicklingError")
  end.

(** a [for] loop whose body may raise *)
Fixpoint for_each {S A} (xs : list A) (body : A -> M S unit) : M S unit :=
  match xs with
  | [] => ret tt
  | x :: rest => body x ;> for_each rest body
  end.

(** a list comprehension whose element expression may raise *)
Fixpoint for_list {S A B} (xs : list A) (f : A -> M S B) : M S (list B) :=
  match xs with
  | [] => ret []
  | x :: rest =>
      let! y := f x in let! ys := for_list rest f in ret (y :: ys)
  end.

End effects.

(** ** [training.py] *)

Module Training.
Section training.
Context `{L : Libs}.

Definition prefix : string := "/opt/ml".
Definition input_path : string := path_join prefix "input/data".
Definition output_path : string := path_join prefix "output".
Definition model_path : string := path_join prefix "model".
Definition param_path : string :=
  path_join prefix "input/config/hyperparameters.json".

(** The names the module binds at top level: its six imports, its five
    path constants and [start]. *)
Definition module_names : list string :=
  ["os"; "pd"; "re"; "joblib"; "json"; "RandomForestClassifier";
   "prefix"; "input_path"; "output_path"; "model_path"; "param_path";
   "start"].

(** the builtins the module refers to *)
Definition builtin_names : list string :=
  ["print"; "open"; "len"; "float"; "int"; "ValueError"; "Exception"].

(** Evaluating a global name: found among the module's names or the
    builtins, or [NameError]. *)
Definition use (globals : list string) (name : string) : M World unit :=
  if existsb (String.eqb name) (globals ++ builtin_names)
  then ret tt
  else raise (NameError name).

Definition uses (globals names : list string) : M World unit :=
  for_each names (use globals).

(** [re.compile(r'^\d+(?:\.\d+)$')] and [re.compile(r'^\d+$')], anchors
    apart (see [Regex.match_anchored]) *)
Definition is_float : Regex.regex :=
  Regex.Seq (Regex.Plus (Regex.Class Regex.is_digit))
    (Regex.Seq (Regex.Lit ".") (Regex.Plus (Regex.Class Regex.is_digit))).
Definition is_integer : Regex.regex :=
  Regex.Plus (Regex.Class Regex.is_digit).

(** The body of the loop over the hyperparameters: the new [value]. *)
Definition coerce (v : jvalue) : result value :=
  match v with
  | JOther => Raise (TypeError "expected string or bytes-like object")
  | JString text =>
      if Regex.match_anchored is_float text
      then rbind (py_float text) (fun f => Ok (VFloat f))
      else if Regex.match_anchored is_integer text
      then rbind (py_int text) (fun z => Ok (VInt z))
      else Ok (VStr text)
  end.

(** [for key, value in json.load(tc).items(): ... hyperparameters[key] = value] *)
Fixpoint coerce_all (items : list (string * jvalue))
    (hyperparameters : gmap string value) : result (gmap string value) :=
  match items with
  | [] => Ok hyperparameters
  | (key, v) :: rest =>
      rbind (coerce v) (fun v' =>
        coerce_all rest (<[key := v']> hyperparameters))
  end.

(** the message of the [ValueError] for an empty channel *)
Definition no_files_message (training_path validation_path : string)
    : string :=
  "There are no files in " +:+ training_path +:+ " or " +:+ "train"
  +:+ ".\n"
  +:+ "This usually indicates that the channel (" +:+ validation_path
  +:+ " or " +:+ "validation" +:+ ") was incorrectly specified,\n"
  +:+ "the data specification in S3 was incorrectly specified or the role specified\n"
  +:+ "does not have permission to access the data.".

(** [data.iloc[:,0]] and [data.iloc[:,1:]] *)
Fixpoint first_column (rows : list (list cell)) : result (list cell) :=
  match rows with
  | [] => Ok []
  | [] :: _ =>
      Raise (IndexError "single positional indexer is out-of-bounds")
  | (c :: _) :: rest => rbind (first_column rest) (fun cs => Ok (c :: cs))
  end.
Definition other_columns (rows : list (list cell)) : list (list cell) :=
  map (@tail cell) rows.

(** the statements under [try:] *)
Definition body (g : list string) : M World unit :=
  uses g ["os"; "input_path"] ;>
  let training_path := path_join input_path "train" in
  let validation_path := path_join input_path "validation" in
  uses g ["open"; "param_path"] ;>
  let! tc := read_file param_path in
  uses g ["re"; "json"] ;>
  let! items := lift (json_load tc) in
  let! hyperparameters := lift (coerce_all items ∅) in
  uses g ["os"] ;>
  let! train_names := listdir training_path in
  let train_files := map (path_join training_path) train_names in
  let! validation_names := listdir validation_path in
  let validation_files := map (path_join validation_path) validation_names in
  uses g ["len"] ;>
  if (Nat.eqb (length train_files) 0 || Nat.eqb (length validation_files) 0)%bool
  then
    uses g ["ValueError"] ;>
    raise (ValueError (no_files_message training_path validation_path))
  else
    uses g ["pd"] ;>
    let! raw_data := for_list train_files read_csv in
    let train_data := concat raw_data in
    let! raw_data := for_list validation_files read_csv in
    let validation_data := concat raw_data in
    let! Y_train := lift (first_column train_data) in
    let X_train := other_columns train_data in
    let! Y_validation := lift (first_column validation_data) in
    let X_validation := other_columns validation_data in
    uses g ["print"] ;>
    print "Training the classifier" ;>
    uses g ["RandomForestClassifier"] ;>
    let model := new_classifier in
    let hyperparameters := <["verbose" := VInt 1]> hyperparameters in
    let! model := lift (set_params model hyperparameters) in
    count_fit ;>
    let! model := lift (fit model X_train Y_train) in
    let! accuracy := lift (score model X_validation Y_validation) in
    print ("Score: " +:+ accuracy) ;>
    uses g ["joblib"; "open"; "os"; "model_path"] ;>
    write_file (path_join model_path "iris_model.pkl") (FPickle model).

(** the text of the failure report *)
Definition failure_text (e : exn) : string :=
  "Exception during training: " +:+ str_exn e +:+ "\n" +:+ format_exc e.

(** the statements under [except Exception as e:] *)
Definition handler (g : list string) (e : exn) : M World unit :=
  uses g ["traceback"] ;>
  let trc := format_exc e in
  uses g ["open"; "os"; "output_path"] ;>
  write_file (path_join output_path "failure")
    (FText ("Exception during training: " +:+ str_exn e +:+ "\n" +:+ trc)) ;>
  uses g ["print"; "sys"] ;>
  print_err ("Exception during training: " +:+ str_exn e +:+ "\n" +:+ trc) ;>
  uses g ["sys"] ;>
  (fun w => (w, Exit 255)).

(** [start()] run with the given global names *)
Definition start_in (g : list string) : M World unit :=
  uses g ["print"] ;>
  print "Training mode" ;>
  try_except (body g) (handler g).

(** [start()] as the module defines it *)
Definition start : M World unit := start_in module_names.

End training.
End Training.

(** ** [inference_handler.py] *)

Module Inference.
Section inference.
Context `{L : Libs}.

(** *** numpy arrays and the toolkit's CSV coding *)

(** an array: its shape and its elements in row-major order *)
Record ndarray : Type := mkArray {
  shape : list nat;
  data : list cell
}.

(** [text.split(sep)] for a separator of one character *)
Fixpoint split_on (sep : ascii) (text : string) : list string :=
  match text with
  | EmptyString => [EmptyString]
  | String c rest =>
      if Ascii.eqb c sep then EmptyString :: split_on sep rest
      else
        match split_on sep rest with
        | field :: fields => String c field :: fields
        | [] => [String c EmptyString]
        end
  end.

Definition nonempty (line : string) : bool :=
  match line with
  | EmptyString => false
  | _ => true
  end.

Fixpoint parse_cells (fields : list string) : result (list cell) :=
  match fields with
  | [] => Ok []
  | f :: rest =>
      match parse_cell f with
      | Some c => rbind (parse_cells rest) (fun cs => Ok (c :: cs))
      | None => Raise (ValueError ("could not convert string to float: '" +:+ f +:+ "'"))
      end
  end.

Fixpoint parse_lines (lines : list string) : result (list (list cell)) :=
  match lines with
  | [] => Ok []
  | l :: rest =>
      rbind (parse_cells (split_on "," l)) (fun r =>
        rbind (parse_lines rest) (fun rs => Ok (r :: rs)))
  end.

(** [np.squeeze]: axes of length one are dropped *)
Definition squeeze (a : ndarray) : ndarray :=
  mkArray (List.filter (fun n => negb (Nat.eqb n 1)) (shape a)) (data a).

(** [a.reshape(1, -1)] *)
Definition reshape_one_row (a : ndarray) : ndarray :=
  mkArray [1%nat; length (data a)] (data a).

(** Modelled from the spec: the toolkit's CSV decoder, which the repository
    does not contain.  It is numpy's
    [np.genfromtxt(StringIO(text), delimiter=",")]: the lines that are not
    empty, each split at the commas, all of one width; the result is
    squeezed.  (Text that is no number, which numpy turns into nan, is an
    error in the model; comments and the stripping of blanks are left
    out.) *)
Definition csv_to_numpy (text : string) : result ndarray :=
  rbind (parse_lines (List.filter nonempty (split_on newline text)))
    (fun rows =>
       match rows with
       | [] => Ok (mkArray [0%nat] [])
       | r :: _ =>
           if forallb (fun r' => Nat.eqb (length r') (length r)) rows
           then Ok (squeeze (mkArray [length rows; length r] (concat rows)))
           else Raise (ValueError "Some errors were detected !")
       end).

(** Modelled from the spec: [decoder.decode(input_data, content_type)] of
    the toolkit, for CSV.
    (The toolkit's JSON and NPY decoders are not modelled: the handler
    calls [decode] with [text/csv] only.) *)
Definition decoder_decode (input_data content_type : string)
    : result ndarray :=
  if String.eqb content_type "text/csv" then csv_to_numpy input_data
  else Raise (LibraryError "UnsupportedFormatError").

(** Modelled from the spec: the toolkit's CSV encoder, which the repository
    does not contain.  It is numpy's
    [np.savetxt(stream, np.array(prediction), delimiter=",", fmt="%s")] on
    a list of numbers: one number per line. *)
Definition array_to_csv (prediction : list cell) : string :=
  String.concat "" (map (fun c => show_cell c +:+ nl) prediction).

(** Modelled from the spec: [encoder.encode(prediction, accept)] of the
    toolkit, for CSV. *)
Definition encoder_encode (prediction : list cell) (accept : string)
    : result string :=
  if String.eqb accept "text/csv" then Ok (array_to_csv prediction)
  else Raise (LibraryError "UnsupportedFormatError").

(** the rows of a two-dimensional array *)
Fixpoint chunks (n k : nat) (elements : list cell) : list (list cell) :=
  match n with
  | O => []
  | S n' => firstn k elements :: chunks n' k (skipn k elements)
  end.

(** [model.predict(payload)]: scikit-learn wants a two-dimensional array *)
Definition model_predict (model : Model) (payload : ndarray)
    : result (list cell) :=
  match shape payload with
  | [n; k] => predict model (chunks n k (data payload))
  | _ => Raise (ValueError "Expected 2D array")
  end.

(** *** The state of the handler service *)

Record Service : Type := mkService {
  (** the transformer's [_initialized] and [_model] *)
  initialized : bool;
  loaded_model : option Model;
  (** how often [initialize] was called and how often a model was loaded *)
  initialize_calls : nat;
  model_loads : nat;
  (** how often the transformer was asked to transform a request *)
  transform_calls : nat;
  (** the arrays on which [predict] was called, latest last *)
  predict_log : list ndarray
}.

(** [_service = HandlerService()]: nothing is loaded yet *)
Definition fresh_service : Service := mkService false None 0 0 0 [].

(** What the model server hands over with a request: the body, and the
    content type and accept type as the toolkit passes them on to the
    handler's functions. *)
Record Request : Type := mkRequest {
  body : string;
  content_type : string;
  accept : string
}.

Record Context : Type := mkContext { model_dir : string }.

(** *** class [InferenceHandler] *)

Definition default_model_fn (w : World) (model_dir : string)
    : result Model :=
  let model_filename := path_join model_dir "iris_model.pkl" in
  match files w !! model_filename with
  | Some c => joblib_load c
  | None => Raise (FileNotFoundError model_filename)
  end.

Definition default_input_fn (input_data content_type : string)
    : result ndarray :=
  if negb (String.eqb content_type "text/csv")
  then Raise (Exception ("Invalid content-type: " +:+ content_type))
  else rbind (decoder_decode input_data content_type)
         (fun a => Ok (reshape_one_row a)).

(** [predict] is about to be called on [payload] *)
Definition log_predict (payload : ndarray) (s : Service) : Service :=
  mkService (initialized s) (loaded_model s) (initialize_calls s)
            (model_loads s) (transform_calls s) (predict_log s ++ [payload]).

Definition default_predict_fn (payload : ndarray) (model : Model)
    : M Service (list cell) :=
  modify (log_predict payload) ;>
  lift (model_predict model payload).

Definition default_output_fn (prediction : list cell) (accept : string)
    : result string :=
  if negb (String.eqb accept "text/csv")
  then Raise (Exception ("Invalid accept: " +:+ accept))
  else encoder_encode prediction accept.

(** *** The toolkit's handler service *)

Definition set_loaded (m : Model) (s : Service) : Service :=
  mkService true (Some m) (initialize_calls s) (model_loads s)
            (transform_calls s) (predict_log s).
Definition count_initialize (s : Service) : Service :=
  mkService (initialized s) (loaded_model s) (S (initialize_calls s))
            (model_loads s) (transform_calls s) (predict_log s).
Definition count_model_load (s : Service) : Service :=
  mkService (initialized s) (loaded_model s) (initialize_calls s)
            (S (model_loads s)) (transform_calls s) (predict_log s).
Definition count_transform (s : Service) : Service :=
  mkService (initialized s) (loaded_model s) (initialize_calls s)
            (model_loads s) (S (transform_calls s)) (predict_log s).

(** Modelled from the spec: the toolkit's guarded model loading, which the
    repository does not contain.  An initialized service is left alone;
    otherwise the model is loaded through the handler's
    [default_model_fn] and, when that succeeds, the service becomes
    initialized. *)
Definition validate_and_initialize (w : World) (model_dir : string)
    : M Service unit :=
  let! ready := gets initialized in
  if ready then ret tt
  else
    modify count_model_load ;>
    let! m := lift (default_model_fn w model_dir) in
    modify (set_loaded m).

(** Modelled from the spec: [DefaultHandlerService.initialize] of the
    toolkit, which loads the model from the model directory that the
    context names. *)
Definition initialize (w : World) (context : Context) : M Service unit :=
  modify count_initialize ;>
  validate_and_initialize w (model_dir context).

(** Modelled from the spec: the toolkit's transform of one request, which
    the repository does not contain: decode the input, predict, encode the
    output, in this order; an exception of any step ends the request. *)
Definition transform_fn (model : Model)
    (input_data content_type accept : string) : M Service string :=
  let! payload := lift (default_input_fn input_data content_type) in
  let! prediction := default_predict_fn payload model in
  lift (default_output_fn prediction accept).

(** Modelled from the spec: [DefaultHandlerService.handle] of the toolkit,
    which hands the request to the transformer. *)
Definition service_handle (w : World) (request : Request)
    (context : Context) : M Service string :=
  modify count_transform ;>
  validate_and_initialize w (model_dir context) ;>
  let! m := gets loaded_model in
  match m with
  | Some model =>
      transform_fn model (body request) (content_type request)
                   (accept request)
  | None => raise (LibraryError "model not loaded")
  end.

(** *** [handle], the entry point the model server calls *)

Definition handle (w : World) (data : option Request) (context : Context)
    : M Service (option string) :=
  let! ready := gets initialized in
  (if negb ready then initialize w context else ret tt) ;>
  match data with
  | None => ret None
  | Some request =>
      let! response := service_handle w request context in
      ret (Some response)
  end.

(** Modelled from the spec: one serving process.  The model server calls
    [handle] once per invocation; a failure to load the model is fatal and
    ends the process, every other exception becomes an error response and
    serving goes on.  The result lists, per invocation, whether the service
    was initialized when the invocation began, and the outcome. *)
Fixpoint serve (w : World) (context : Context)
    (invocations : list (option Request)) (s : Service)
    : Service * list (bool * result (option string)) :=
  match invocations with
  | [] => (s, [])
  | data :: rest =>
      let (s', outcome) := handle w data context s in
      if initialized s'
      then
        let (s'', log) := serve w context rest s' in
        (s'', (initialized s, outcome) :: log)
      else (s', [(initialized s, outcome)])
  end.

(** *** The dispatcher under [if __name__ == '__main__':] *)

Inductive action : Type :=
  | TrainingStart
  | StartModelServer (handler_service : string).

Record Process : Type := mkProcess {
  world : World;
  (** the routines the dispatcher has invoked, latest last *)
  invoked : list action
}.

Definition invoke (a : action) : M Process unit :=
  modify (fun p => mkProcess (world p) (invoked p ++ [a])).

(** a computation on the world, run inside the process *)
Definition in_world {A} (c : M World A) : M Process A :=
  fun p =>
    let (w', r) := c (world p) in
    (mkProcess w' (invoked p), r).

Definition usage : string :=
  "Invalid argument: you must inform 'train' for training mode or 'serve' predicting mode".

(** [sys.argv] is the list [argv]; the second operand of [or] is evaluated
    only when the list has two elements or more.  Starting the model server
    is modelled by its invocation alone: it serves until the process is
    stopped from outside. *)
Definition main (argv : list string) : M Process unit :=
  if (Nat.ltb (length argv) 2
      || negb (existsb (String.eqb (nth 1 argv "")) ["serve"; "train"]))%bool
  then
    raise (Exception usage)
  else if String.eqb (nth 1 argv "") "train"
  then invoke TrainingStart ;> in_world Training.start
  else
    invoke (StartModelServer "/opt/program/inference_handler.py:handle").

End inference.
End Inference.

(** ** A small instance of the libraries, and the notebook's local test

    Numbers are the three class labels of the Iris data set, printed as
    pandas writes them; the classifier answers with the first feature of a
    sample.  The files are those the notebook prepares before it runs the
    container locally. *)

Module Sample.

Inductive num : Type := n0 | n1 | n2.

Definition show_num (c : num) : string :=
  match c with
  | n0 => "0.0"
  | n1 => "1.0"
  | n2 => "2.0"
  end.

Definition parse_num (text : string) : option num :=
  if String.eqb text "0.0" then Some n0
  else if String.eqb text "1.0" then Some n1
  else if String.eqb text "2.0" then Some n2
  else None.

#[export] Instance libs : Libs := {|
  cell := num;
  Estimator := gmap string value;
  Model := gmap string value;
  new_classifier := ∅;
  set_params := fun _ hyperparameters => Ok hyperparameters;
  fit := fun estimator _ _ => Ok estimator;
  score := fun _ _ _ => Ok "1.0";
  predict := fun _ X => Ok (map (fun row => hd n0 row) X);
  show_cell := show_num;
  parse_cell := parse_num;
  format_exc := fun e =>
    "Traceback (most recent call last): " +:+ str_exn e
|}.

Definition hyperparameters : list (string * jvalue) :=
  [("max_depth", JString "11"); ("n_jobs", JString "5");
   ("n_estimators", JString "120")].

(** hyperparameters of each kind: a whole number, a decimal number, text *)
Definition mixed_hyperparameters : list (string * jvalue) :=
  [("max_depth", JString "11"); ("max_features", JString "0.5");
   ("criterion", JString "gini")].

Definition training_csv : list (list num) :=
  [[n0; n1; n2; n0; n1]; [n1; n2; n0; n1; n2]; [n2; n0; n1; n2; n0]].
Definition validation_csv : list (list num) :=
  [[n1; n1; n0; n2; n1]; [n0; n2; n2; n1; n0]].

Definition sample_files : gmap string file_content :=
  <["/opt/ml/input/config/hyperparameters.json" := FJson hyperparameters]>
  (<["/opt/ml/input/data/train/training.csv" := FTable training_csv]>
  (<["/opt/ml/input/data/validation/validation.csv" := FTable validation_csv]>
   ∅)).

(** the mounted volumes with both channels filled *)
Definition local_test : World :=
  mkWorld sample_files
    (<["/opt/ml/input/data/train" := ["training.csv"]]>
     (<["/opt/ml/input/data/validation" := ["validation.csv"]]> ∅))
    [] [] 0.

(** the same with an empty train channel *)
Definition empty_train : World :=
  mkWorld sample_files
    (<["/opt/ml/input/data/train" := []]>
     (<["/opt/ml/input/data/validation" := ["validation.csv"]]> ∅))
    [] [] 0.

(** the same without the hyperparameter file *)
Definition no_hyperparameters : World :=
  mkWorld ∅
    (<["/opt/ml/input/data/train" := ["training.csv"]]>
     (<["/opt/ml/input/data/validation" := ["validation.csv"]]> ∅))
    [] [] 0.

Definition context : Inference.Context :=
  Inference.mkContext "/opt/ml/model".

(** the volumes after the local training run *)
Definition trained : World := fst (Training.start local_test).

(** a feature row, and three requests: a well-formed one, one with a JSON
    body, and one that asks for a JSON answer *)
Definition features : list num := [n1; n2; n0; n1].
Definition csv_request : Inference.Request :=
  Inference.mkRequest "1.0,2.0,0.0,1.0" "text/csv" "text/csv".
Definition json_request : Inference.Request :=
  Inference.mkRequest "[1.0, 2.0, 0.0, 1.0]" "application/json" "text/csv".
Definition wants_json : Inference.Request :=
  Inference.mkRequest "1.0,2.0,0.0,1.0" "text/csv" "application/json".

End Sample.

(** ** The forms of text that the specification names *)

(** text made of the digits [ds], possibly with one newline after them *)
Definition whole_number_text (text : string) (ds : list ascii) : Prop :=
  all_digits ds = true /\
  (list_ascii_of_string text = ds \/
   list_ascii_of_string text = ds ++ [newline]).

(** text made of the digits [ip], a dot and the digits [fp], possibly with
    one newline after them *)
Definition decimal_text (text : string) (ip fp : list ascii) : Prop :=
  all_digits ip = true /\ all_digits fp = true /\
  (list_ascii_of_string text = ip ++ "."%char :: fp \/
   list_ascii_of_string text = (ip ++ "."%char :: fp) ++ [newline]).

(** the number that the digits [ip], a dot and the digits [fp] denote *)
Definition decimal_value (ip fp : list ascii) : Q :=
  inject_Z (digits_value ip)
  + Qmake (digits_value fp) (Z.to_pos (10 ^ Z.of_nat (length fp))).

(** the same number as one fraction: all the digits over a power of ten *)
Definition decimal_fraction (ip fp : list ascii) : Q :=
  Qmake (digits_value (ip ++ fp)) (Z.to_pos (10 ^ Z.of_nat (length fp))).

(** the number that a binary64 number is, when it is finite *)
Definition exact_value (f : binary64) : option Q :=
  match f with
  | S754_zero _ => Some (inject_Z 0)
  | S754_finite s m e =>
      let n := if s then Z.neg m else Z.pos m in
      Some (if 0 <=? e then inject_Z (n * 2 ^ e)
            else Qmake n (Z.to_pos (2 ^ (- e))))
  | _ => None
  end.

(** [f] is the number [q], with no rounding *)
Definition is_exactly (f : binary64) (q : Q) : bool :=
  match exact_value f with
  | Some v => Qeq_bool v q
  | None => false
  end.

(** the coercion of a hyperparameter [text] to [v], told from the form of
    the text: digits, a dot and digits give the binary64 number nearest to
    the number they denote; digits alone give that whole number; any other
    text gives itself *)
Definition coercion_of (text : string) (v : value) : Prop :=
  (forall ip fp, decimal_text text ip fp ->
     v = VFloat (round_binary64 false (Qnum (decimal_fraction ip fp))
                                      (Qden (decimal_fraction ip fp))) /\
     Qeq (decimal_fraction ip fp) (decimal_value ip fp)) /\
  (forall ds, whole_number_text text ds -> v = VInt (digits_value ds)) /\
  ((forall ip fp, ~ decimal_text text ip fp) ->
   (forall ds, ~ whole_number_text text ds) ->
   v = VStr text).

(** ** What a computation leaves untouched *)

(** [c] writes no file and prints nothing to the error stream *)
Definition keeps `{Libs} {A} (c : M World A) : Prop :=
  forall w w' r, c w = (w', r) ->
    files w' = files w /\ stderr w' = stderr w.

(** [c] prints nothing to the error stream, and writes no file unless it
    returns normally *)
Definition keeps_unless_ok `{Libs} (c : M World unit) : Prop :=
  forall w w' r, c w = (w', r) ->
    stderr w' = stderr w /\ (r <> Ok tt -> files w' = files w).

(** the world once [start] has printed its banner *)
Definition after_banner `{Libs} (w : World) : World :=
  mkWorld (files w) (dirs w) (stdout w ++ ["Training mode"]) (stderr w)
          (fit_calls w).

(** the world in which the handler has reported the exception [e] *)
Definition reported `{Libs} (e : exn) (w : World) : World :=
  mkWorld (<["/opt/ml/output/failure" := FText (Training.failure_text e)]>
             (files w))
          (dirs w) (stdout w) (stderr w ++ [Training.failure_text e])
          (fit_calls w).

(** whenever [c] returns normally, a pickled model is in the file [path] *)
Definition leaves_model `{Libs} (path : string) (c : M World unit) : Prop :=
  forall w w', c w = (w', Ok tt) ->
    exists m, files w' !! path = Some (FPickle m).

(** ** The notebook's preparation of the local test

    The cells that write the hyperparameter file and the two CSV files which
    the container is then run on. *)

Module Notebook.

(** the character of a decimal digit *)
Definition digit_char (d : Z) : ascii := ascii_of_N (Z.to_N (48 + d)).

(** the decimal digits of [n], put before [acc]; the digits of a number
    below [2 ^ fuel] fit in [fuel] steps *)
Fixpoint digits_of (fuel : nat) (n : Z) (acc : list ascii) : list ascii :=
  match fuel with
  | O => acc
  | S fuel' =>
      let acc' := digit_char (n mod 10) :: acc in
      if n <? 10 then acc' else digits_of fuel' (n / 10) acc'
  end.

(** [str(n)] for a Python int *)
Definition py_str_int (n : Z) : string :=
  if n <? 0
  then String "-"
         (string_of_list_ascii
            (digits_of (S (Z.to_nat (Z.log2 (- n)))) (- n) []))
  else string_of_list_ascii (digits_of (S (Z.to_nat (Z.log2 n))) n []).

(** [hyperparameters = { "max_depth": 11, "n_jobs": 5, "n_estimators": 120 }] *)
Definition hyperparameters : list (string * Z) :=
  [("max_depth", 11); ("n_jobs", 5); ("n_estimators", 120)].

(** [dict({key: str(values) for key, values in hyperparameters.items()})]
    for a dict of ints, as the file [hyperparameters.json] then holds it
    ([json.dumps] on writing and [json.load] on reading are each other's
    inverse on a dict of text) *)
Definition stringify (hyperparameters : list (string * Z))
    : list (string * jvalue) :=
  map (fun kv => (fst kv, JString (py_str_int (snd kv)))) hyperparameters.

(** [df = X.copy(); df.insert(0, 'iris_id', y)] for a frame [X] and a series
    [y] over one index (both halves of one split): the label becomes the
    first column of every row *)
Fixpoint insert_label {A} (X : list (list A)) (y : list A) : list (list A) :=
  match X, y with
  | row :: X', label :: y' => (label :: row) :: insert_label X' y'
  | _, _ => []
  end.

End Notebook.

(** ** Further situations of the mounted volumes *)

Module Cases.
Import Sample.

(** a one, four hundred zeros, a dot and a zero: more than any binary64 *)
Definition beyond_binary64 : string :=
  string_of_list_ascii
    ("1"%char :: List.repeat "0"%char 400 ++ ["."%char; "0"%char]).

(** a hyperparameter file written without the conversion to text *)
Definition raw_hyperparameters : World :=
  mkWorld
    (<["/opt/ml/input/config/hyperparameters.json" :=
         FJson [("max_depth", JString "11"); ("n_jobs", JOther)]]>
       sample_files)
    (dirs local_test) [] [] 0.

(** no train directory at all *)
Definition no_train_directory : World :=
  mkWorld sample_files
    (<["/opt/ml/input/data/validation" := ["validation.csv"]]> ∅)
    [] [] 0.

(** a service whose transformer has loaded the empty sample model *)
Definition ready : Inference.Service :=
  Inference.set_loaded (∅ : @Model libs) Inference.fresh_service.

(** a payload of two rows *)
Definition two_rows : list (list num) := [[n1; n2]; [n0; n1]].

(** the notebook's hyperparameters with all cores asked for *)
Definition all_cores : list (string * Z) :=
  [("max_depth", 11); ("n_jobs", -1); ("n_estimators", 120)].

(** the parameter names that the strict estimator below knows *)
Definition known_parameters : list string :=
  ["max_depth"; "n_jobs"; "n_estimators"; "criterion"; "verbose"].

(** the sample libraries with an estimator that, like scikit-learn's,
    refuses a parameter it does not know *)
Definition strict_libs : Libs := {|
  cell := num;
  Estimator := gmap string value;
  Model := gmap string value;
  new_classifier := ∅;
  set_params := fun _ hyperparameters =>
    if forallb (fun kv => existsb (String.eqb (fst kv)) known_parameters)
         (map_to_list hyperparameters)
    then Ok hyperparameters
    else Raise (ValueError "Invalid parameter for estimator");
  fit := fun estimator _ _ => Ok estimator;
  score := fun _ _ _ => Ok "1.0";
  predict := fun _ X => Ok (map (fun row => hd n0 row) X);
  show_cell := show_num;
  parse_cell := parse_num;
  format_exc := fun e =>
    "Traceback (most recent call last): " +:+ str_exn e
|}.

(** the local test with a hyperparameter that the estimator does not know *)
Definition unknown_hyperparameter : @World strict_libs :=
  @mkWorld strict_libs
    (<["/opt/ml/input/config/hyperparameters.json" :=
         @FJson strict_libs [("depth", JString "3")]]>
     (<["/opt/ml/input/data/train/training.csv" :=
          @FTable strict_libs training_csv]>
     (<["/opt/ml/input/data/validation/validation.csv" :=
          @FTable strict_libs validation_csv]> ∅)))
    (<["/opt/ml/input/data/train" := ["training.csv"]]>
     (<["/opt/ml/input/data/validation" := ["validation.csv"]]> ∅))
    [] [] 0.

End Cases.

(** ** Worlds along a training run, and inputs that are missing *)

(** the world once the classifier has been announced, once [fit] has been
    called, and once the model [m] with the printed [accuracy] is saved *)
Definition announced `{Libs} (w : World) : World :=
  mkWorld (files w) (dirs w) (stdout w ++ ["Training the classifier"])
          (stderr w) (fit_calls w).
Definition fitting `{Libs} (w : World) : World :=
  mkWorld (files w) (dirs w) (stdout w ++ ["Training the classifier"])
          (stderr w) (S (fit_calls w)).
Definition trained_world `{Libs} (m : Model) (accuracy : string) (w : World)
    : World :=
  mkWorld (<["/opt/ml/model/iris_model.pkl" := FPickle m]> (files w)) (dirs w)
          ((stdout w ++ ["Training the classifier"])
           ++ ["Score: " +:+ accuracy])
          (stderr w) (S (fit_calls w)).

(** [path] is the first input that the training script looks for and does
    not find: the hyperparameter file, else the train directory, else the
    validation directory *)
Inductive missing_input `{Libs} (w : World) : string -> Prop :=
  | missing_hyperparameters :
      files w !! "/opt/ml/input/config/hyperparameters.json" = None ->
      missing_input w "/opt/ml/input/config/hyperparameters.json"
  | missing_train items h :
      files w !! "/opt/ml/input/config/hyperparameters.json"
        = Some (FJson items) ->
      Training.coerce_all items ∅ = Ok h ->
      dirs w !! "/opt/ml/input/data/train" = None ->
      missing_input w "/opt/ml/input/data/train"
  | missing_validation items h train_names :
      files w !! "/opt/ml/input/config/hyperparameters.json"
        = Some (FJson items) ->
      Training.coerce_all items ∅ = Ok h ->
      dirs w !! "/opt/ml/input/data/train" = Some train_names ->
      dirs w !! "/opt/ml/input/data/validation" = None ->
      missing_input w "/opt/ml/input/data/validation".

(** the rows of a table as CSV text: a comma between the numbers of a row,
    a newline between the rows *)
Definition csv_lines `{Libs} (rows : list (list cell)) : string :=
  String.concat nl
    (map (fun row => String.concat "," (map show_cell row)) rows).

(** * Properties *)

(** ** Matching by derivatives is matching *)

Section regex_facts.
Import Regex.

Lemma nullable_lang r : nullable r = true <-> lang r [].
Proof.
  split.
  - induction r as [| |p|r1 IH1 r2 IH2|r1 IH1 r2 IH2|r IH];
      simpl; intros Hn; try discriminate.
    + constructor.
    + apply andb_true_iff in Hn as [H1 H2].
      apply (lang_seq r1 r2 [] []); auto.
    + apply orb_true_iff in Hn as [H|H];
        [apply lang_alt_l | apply lang_alt_r]; auto.
    + constructor.
  - intros H. remember (@nil ascii) as s eqn:Hs.
    induction H as [|p a Hp|r1 r2 s1 s2 H1 IH1 H2 IH2|r1 r2 s H IH
                    |r1 r2 s H IH| |r s1 s2 H1 IH1 H2 IH2]; simpl; auto.
    + discriminate.
    + apply app_eq_nil in Hs as [-> ->].
      rewrite IH1, IH2; auto.
    + rewrite IH; auto.
    + rewrite IH; auto. apply orb_true_r.
Qed.

Lemma lang_der a r s : lang r (a :: s) -> lang (der a r) s.
Proof.
  intros H. remember (a :: s) as w eqn:Hw. revert s Hw.
  induction H as [|p a' Hp|r1 r2 s1 s2 H1 IH1 H2 IH2|r1 r2 s' H IH
                  |r1 r2 s' H IH| |r s1 s2 H1 IH1 H2 IH2];
    intros s Hw; simpl.
  - discriminate.
  - injection Hw as -> <-. rewrite Hp. constructor.
  - destruct s1 as [|b s1'].
    + simpl in Hw. subst s2.
      apply nullable_lang in H1. rewrite H1.
      apply lang_alt_r. auto.
    + simpl in Hw. injection Hw as -> <-.
      assert (Hs : lang (Seq (der a r1) r2) (s1' ++ s2))
        by (constructor; auto).
      destruct (nullable r1); [apply lang_alt_l|]; exact Hs.
  - apply lang_alt_l. auto.
  - apply lang_alt_r. auto.
  - discriminate.
  - destruct s1 as [|b s1'].
    + simpl in Hw. apply IH2 in Hw. exact Hw.
    + simpl in Hw. injection Hw as -> <-.
      constructor; auto.
Qed.

Lemma der_lang a r : forall s, lang (der a r) s -> lang r (a :: s).
Proof.
  induction r as [| |p|r1 IH1 r2 IH2|r1 IH1 r2 IH2|r IH];
    simpl; intros s H.
  - inversion H.
  - inversion H.
  - destruct (p a) eqn:Hp; inversion H; subst. constructor. exact Hp.
  - destruct (nullable r1) eqn:Hn.
    + inversion H as [| |? ? ? ? ? ?|? ? ? HL|? ? ? HR| |]; subst.
      * inversion HL; subst.
        apply (lang_seq r1 r2 (a :: _) _); auto.
      * apply (lang_seq r1 r2 [] (a :: s)); auto.
        apply nullable_lang. exact Hn.
    + inversion H; subst.
      apply (lang_seq r1 r2 (a :: _) _); auto.
  - inversion H; subst; [apply lang_alt_l | apply lang_alt_r]; auto.
  - inversion H; subst.
    apply (lang_star_app r (a :: _) _); auto.
Qed.

Lemma matches_lang s : forall r, matches r s = true <-> lang r s.
Proof.
  induction s as [|a s IH]; intros r; simpl.
  - apply nullable_lang.
  - rewrite IH. split; [apply der_lang | apply lang_der].
Qed.

(** the words of [p+]: one character of the class or more *)
Lemma lang_star_class p s :
  lang (Star (Class p)) s <-> forallb p s = true.
Proof.
  split.
  - intros H. remember (Star (Class p)) as r eqn:Hr.
    induction H as [|? ? ?|? ? ? ? ? ? ? ?|? ? ? ? ?|? ? ? ? ?|
                    |r s1 s2 H1 IH1 H2 IH2]; try discriminate; auto.
    injection Hr as ->. inversion H1; subst. simpl.
    rewrite IH2 by reflexivity. rewrite andb_true_r. assumption.
  - induction s as [|a s IH]; simpl; intros H.
    + constructor.
    + apply andb_true_iff in H as [Ha Hs].
      apply (lang_star_app (Class p) [a] s); auto. constructor. exact Ha.
Qed.

Lemma lang_plus_class p s :
  lang (Plus (Class p)) s <-> s <> [] /\ forallb p s = true.
Proof.
  unfold Plus. split.
  - intros H. inversion H as [| |? ? s1 s2 H1 H2| | | |]; subst.
    inversion H1; subst. apply lang_star_class in H2. simpl.
    split; [discriminate|]. rewrite H2, andb_true_r. assumption.
  - intros [Hne H]. destruct s as [|a s]; [congruence|].
    simpl in H. apply andb_true_iff in H as [Ha Hs].
    apply (lang_seq (Class p) (Star (Class p)) [a] s).
    + constructor. exact Ha.
    + apply lang_star_class. exact Hs.
Qed.

End regex_facts.

(** ** The texts the two patterns accept *)

Section pattern_facts.
Import Regex.

Lemma all_digits_iff ds :
  all_digits ds = true <-> ds <> [] /\ forallb is_digit ds = true.
Proof.
  unfold all_digits. destruct ds as [|c ds].
  - split; [discriminate | intros [H _]; congruence].
  - split; [intros H; split; [discriminate | exact H] | intros [_ H]; exact H].
Qed.

Lemma chomp_spec s front :
  chomp s = Some front <-> s = front ++ [newline].
Proof.
  unfold chomp. split.
  - destruct (rev s) as [|c r] eqn:Hr; [discriminate|].
    destruct (Ascii.eqb_spec c newline) as [->|]; [|discriminate].
    intros [= <-]. rewrite <- (rev_involutive s), Hr. reflexivity.
  - intros ->. rewrite rev_unit, Ascii.eqb_refl, rev_involutive.
    reflexivity.
Qed.

(** anchored matching: the whole text is a word of the pattern, or the
    text without its final newline is *)
Lemma match_anchored_iff r text :
  match_anchored r text = true <->
  lang r (list_ascii_of_string text) \/
  exists front,
    list_ascii_of_string text = front ++ [newline] /\ lang r front.
Proof.
  unfold match_anchored. rewrite orb_true_iff, matches_lang. split.
  - intros [H|H]; [left; exact H|right].
    destruct (chomp _) as [front|] eqn:Hc; [|discriminate].
    exists front. split; [apply chomp_spec, Hc | apply matches_lang, H].
  - intros [H|[front [Hf H]]]; [left; exact H|right].
    apply chomp_spec in Hf. rewrite Hf. apply matches_lang, H.
Qed.

Lemma lang_is_integer s :
  lang Training.is_integer s <-> all_digits s = true.
Proof.
  unfold Training.is_integer. rewrite lang_plus_class, all_digits_iff.
  reflexivity.
Qed.

Lemma lang_is_float s :
  lang Training.is_float s <->
  exists ip fp, s = ip ++ "."%char :: fp /\
                all_digits ip = true /\ all_digits fp = true.
Proof.
  unfold Training.is_float. split.
  - intros H. inversion H as [| |? ? ip rest Hip Hrest| | | |]; subst.
    inversion Hrest as [| |? ? dot fp Hdot Hfp| | | |]; subst.
    inversion Hdot as [|? a Ha| | | | |]; subst.
    apply Ascii.eqb_eq in Ha. subst a.
    exists ip, fp. rewrite !all_digits_iff, <- !lang_plus_class. auto.
  - intros (ip & fp & -> & Hip & Hfp).
    rewrite all_digits_iff, <- lang_plus_class in Hip, Hfp.
    constructor; [exact Hip|].
    apply (lang_seq (Lit ".") _ ["."%char] fp); [|exact Hfp].
    constructor. reflexivity.
Qed.

Lemma match_integer_iff text :
  match_anchored Training.is_integer text = true <->
  exists ds, whole_number_text text ds.
Proof.
  rewrite match_anchored_iff. unfold whole_number_text. split.
  - intros [H|[front [Hf H]]]; apply lang_is_integer in H; eauto.
  - intros (ds & Hd & [H|H]); apply lang_is_integer in Hd.
    + left. rewrite H. exact Hd.
    + right. eauto.
Qed.

Lemma match_float_iff text :
  match_anchored Training.is_float text = true <->
  exists ip fp, decimal_text text ip fp.
Proof.
  rewrite match_anchored_iff. unfold decimal_text. split.
  - intros [H|[front [Hf H]]];
      apply lang_is_float in H as (ip & fp & Hs & Hip & Hfp);
      exists ip, fp; repeat split; auto.
    + right. rewrite Hf, Hs. reflexivity.
  - intros (ip & fp & Hip & Hfp & [H|H]).
    + left. rewrite H. apply lang_is_float. eauto.
    + right. exists (ip ++ "."%char :: fp). split; [exact H|].
      apply lang_is_float. eauto.
Qed.

End pattern_facts.

(** ** [int] and [float] on the accepted texts *)

Section builtin_facts.
Import Regex.

Lemma digit_not_space c : is_digit c = true -> is_space c = false.
Proof.
  unfold is_digit, is_space. set (n := Z.of_N (N_of_ascii c)).
  intros H. apply andb_true_iff in H as [H1 H2].
  apply Z.leb_le in H1, H2.
  repeat (apply orb_false_iff; split);
    try (apply andb_false_iff);
    rewrite ?Z.eqb_neq, ?Z.leb_gt; lia.
Qed.

Lemma digit_not_mark c :
  is_digit c = true ->
  Ascii.eqb c "+" = false /\ Ascii.eqb c "-" = false /\
  Ascii.eqb c "." = false.
Proof.
  intros H.
  repeat split;
    match goal with
    | |- Ascii.eqb c ?m = false =>
        destruct (Ascii.eqb_spec c m) as [->|]; [discriminate H | reflexivity]
    end.
Qed.

Lemma head_app (l1 l2 : list ascii) c r :
  l1 <> [] -> l1 ++ l2 = c :: r -> In c l1.
Proof.
  destruct l1 as [|a l1]; [congruence|].
  simpl. intros _ [= -> _]. left. reflexivity.
Qed.

Lemma lstrip_clean s :
  (forall c r, s = c :: r -> is_space c = false) -> lstrip s = s.
Proof.
  destruct s as [|c r]; [reflexivity|]. intros H. simpl.
  rewrite (H c r eq_refl). reflexivity.
Qed.

(** text that neither begins nor ends with white space is what [strip]
    returns for it, with or without a final newline *)
Lemma strip_clean s :
  (forall c r, s = c :: r -> is_space c = false) ->
  (forall c r, rev s = c :: r -> is_space c = false) ->
  strip s = s /\ strip (s ++ [newline]) = s.
Proof.
  intros Hhead Hlast. unfold strip. split.
  - rewrite (lstrip_clean s Hhead), (lstrip_clean (rev s) Hlast).
    apply rev_involutive.
  - destruct s as [|c r]; [reflexivity|].
    replace (lstrip ((c :: r) ++ [newline])) with ((c :: r) ++ [newline])
      by (simpl; rewrite (Hhead c r eq_refl); reflexivity).
    rewrite rev_unit.
    change (lstrip (newline :: rev (c :: r))) with (lstrip (rev (c :: r))).
    rewrite (lstrip_clean _ Hlast). apply rev_involutive.
Qed.

Lemma digits_in ds c :
  forallb is_digit ds = true -> In c ds -> is_digit c = true.
Proof. intros H Hc. eapply forallb_forall in H; eauto. Qed.

Lemma strip_digits ds :
  all_digits ds = true ->
  strip ds = ds /\ strip (ds ++ [newline]) = ds.
Proof.
  intros H. apply all_digits_iff in H as [Hne Hd].
  apply strip_clean; intros c r Hc; apply digit_not_space,
    (digits_in ds); auto.
  - rewrite Hc. left. reflexivity.
  - apply in_rev. rewrite Hc. left. reflexivity.
Qed.

Lemma strip_decimal ip fp :
  all_digits ip = true -> all_digits fp = true ->
  let s := ip ++ "."%char :: fp in
  strip s = s /\ strip (s ++ [newline]) = s.
Proof.
  intros Hip Hfp s. subst s.
  apply all_digits_iff in Hip as [Hip_ne Hip].
  apply all_digits_iff in Hfp as [Hfp_ne Hfp].
  apply strip_clean; intros c r Hc; apply digit_not_space.
  - apply (digits_in ip); auto. eapply head_app; eauto.
  - apply (digits_in fp); auto. apply in_rev.
    rewrite rev_app_distr in Hc. simpl in Hc. rewrite <- app_assoc in Hc.
    eapply head_app; [|exact Hc].
    intros E. apply Hfp_ne. rewrite <- (rev_involutive fp), E. reflexivity.
Qed.

Lemma split_sign_digits ds :
  all_digits ds = true -> split_sign ds = (1, ds).
Proof.
  intros H. apply all_digits_iff in H as [Hne H].
  destruct ds as [|c r]; [congruence|]. simpl in H.
  apply andb_true_iff in H as [Hc _].
  apply digit_not_mark in Hc as (Hplus & Hminus & _).
  simpl. rewrite Hplus, Hminus. reflexivity.
Qed.

Lemma split_dot_decimal ip fp :
  forallb is_digit ip = true ->
  split_dot (ip ++ "."%char :: fp) = (ip, Some fp).
Proof.
  induction ip as [|c ip IH]; simpl; intros H; [reflexivity|].
  apply andb_true_iff in H as [Hc H].
  apply digit_not_mark in Hc as (_ & _ & Hdot).
  rewrite Hdot, (IH H). reflexivity.
Qed.

Lemma digits_value_from ds : forall acc,
  fold_left (fun a c => 10 * a + digit_value c) ds acc
  = acc * 10 ^ Z.of_nat (length ds) + digits_value ds.
Proof.
  unfold digits_value.
  induction ds as [|c ds IH]; intros acc; simpl fold_left.
  - simpl. lia.
  - rewrite (IH (10 * acc + digit_value c)), (IH (10 * 0 + digit_value c)).
    simpl length. rewrite Nat2Z.inj_succ, Z.pow_succ_r by lia. ring.
Qed.

Lemma digits_value_app ip fp :
  digits_value (ip ++ fp)
  = digits_value ip * 10 ^ Z.of_nat (length fp) + digits_value fp.
Proof.
  unfold digits_value at 1. rewrite fold_left_app.
  apply digits_value_from.
Qed.

Lemma py_int_whole text ds :
  whole_number_text text ds -> py_int text = Ok (digits_value ds).
Proof.
  intros [Hd Htext]. unfold py_int.
  destruct (strip_digits ds Hd) as [Hs Hsn].
  assert (Hstrip : strip (list_ascii_of_string text) = ds)
    by (destruct Htext as [->| ->]; assumption).
  rewrite Hstrip, (split_sign_digits ds Hd), Hd.
  f_equal. lia.
Qed.

Lemma decimal_fraction_value ip fp :
  Qeq (decimal_fraction ip fp) (decimal_value ip fp).
Proof.
  unfold decimal_fraction, decimal_value, Qeq, Qplus, inject_Z.
  cbn [Qnum Qden]. rewrite digits_value_app.
  set (d := Z.to_pos (10 ^ Z.of_nat (length fp))).
  assert (Hd : Z.pos d = 10 ^ Z.of_nat (length fp))
    by (subst d; apply Z2Pos.id, Z.pow_pos_nonneg; lia).
  rewrite Pos.mul_1_l, Hd. ring.
Qed.

Lemma py_float_decimal text ip fp :
  decimal_text text ip fp ->
  py_float text
  = Ok (round_binary64 false (Qnum (decimal_fraction ip fp))
                             (Qden (decimal_fraction ip fp))).
Proof.
  intros (Hip & Hfp & Htext). unfold py_float.
  destruct (strip_decimal ip fp Hip Hfp) as [Hs Hsn].
  assert (Hstrip : strip (list_ascii_of_string text) = ip ++ "."%char :: fp)
    by (destruct Htext as [->| ->]; assumption).
  rewrite Hstrip.
  pose proof Hip as Hip'. pose proof Hfp as Hfp'.
  apply all_digits_iff in Hip' as [Hip_ne Hipd].
  apply all_digits_iff in Hfp' as [Hfp_ne Hfpd].
  assert (Hsign : split_sign (ip ++ "."%char :: fp)
                  = (1, ip ++ "."%char :: fp)).
  { destruct ip as [|c r]; [congruence|]. simpl in Hipd.
    apply andb_true_iff in Hipd as [Hc _].
    apply digit_not_mark in Hc as (Hplus & Hminus & _).
    simpl. rewrite Hplus, Hminus. reflexivity. }
  rewrite Hsign, (split_dot_decimal ip fp Hipd), Hipd, Hfpd.
  assert (Hlen : Nat.eqb (length ip + length fp) 0 = false).
  { apply Nat.eqb_neq. destruct ip; [congruence|simpl; lia]. }
  rewrite Hlen. simpl negb. simpl andb. reflexivity.
Qed.

End builtin_facts.

(** ** Hyperparameters *)

Section coercion.
Import Regex.

(** text of digits, with or without a final newline, holds no dot *)
Lemma patterns_disjoint text :
  (match_anchored Training.is_float text
   && match_anchored Training.is_integer text)%bool = false.
Proof.
  destruct (match_anchored Training.is_float text) eqn:Hf; [|reflexivity].
  destruct (match_anchored Training.is_integer text) eqn:Hi; [|reflexivity].
  exfalso.
  apply match_float_iff in Hf as (ip & fp & Hip & Hfp & Hf).
  apply match_integer_iff in Hi as (ds & Hds & Hi).
  apply all_digits_iff in Hds as [_ Hds].
  assert (Hdot : In "."%char (list_ascii_of_string text)).
  { destruct Hf as [-> | ->]; rewrite ?in_app_iff; simpl; auto. }
  assert (Hin : In "."%char ds).
  { destruct Hi as [Hi|Hi]; rewrite Hi in Hdot; [exact Hdot|].
    apply in_app_iff in Hdot as [H|[H|[]]]; [exact H | discriminate H]. }
  pose proof (digits_in ds _ Hds Hin) as H. discriminate H.
Qed.

(** digits, a dot and digits: the test for a decimal number passes, and
    [float] rounds the number they denote *)
Lemma coerce_float text ip fp :
  decimal_text text ip fp ->
  Training.coerce (JString text)
  = Ok (VFloat (round_binary64 false (Qnum (decimal_fraction ip fp))
                                     (Qden (decimal_fraction ip fp)))).
Proof.
  intros Hd.
  assert (Hm : match_anchored Training.is_float text = true)
    by (apply match_float_iff; eauto).
  unfold Training.coerce.
  rewrite Hm, (py_float_decimal text ip fp Hd). reflexivity.
Qed.

(** digits alone: the test for a decimal number fails, the one for a whole
    number passes, and [int] reads the digits *)
Lemma coerce_int text ds :
  whole_number_text text ds ->
  Training.coerce (JString text) = Ok (VInt (digits_value ds)).
Proof.
  intros Hd.
  assert (Hm : match_anchored Training.is_integer text = true)
    by (apply match_integer_iff; eauto).
  assert (Hf : match_anchored Training.is_float text = false).
  { pose proof (patterns_disjoint text) as H. rewrite Hm in H.
    apply andb_false_iff in H as [H|H]; [exact H | discriminate H]. }
  unfold Training.coerce. rewrite Hf, Hm, (py_int_whole text ds Hd).
  reflexivity.
Qed.

Lemma coerce_text text :
  match_anchored Training.is_float text = false ->
  match_anchored Training.is_integer text = false ->
  Training.coerce (JString text) = Ok (VStr text).
Proof. intros Hf Hi. unfold Training.coerce. rewrite Hf, Hi. reflexivity. Qed.

(** the coercion of text never fails *)
Lemma coerce_total text : exists v, Training.coerce (JString text) = Ok v.
Proof.
  destruct (match_anchored Training.is_float text) eqn:Hf.
  - apply match_float_iff in Hf as (ip & fp & Hd).
    rewrite (coerce_float text ip fp Hd). eauto.
  - destruct (match_anchored Training.is_integer text) eqn:Hi.
    + apply match_integer_iff in Hi as (ds & Hd).
      rewrite (coerce_int text ds Hd). eauto.
    + rewrite (coerce_text text Hf Hi). eauto.
Qed.

(** the coercion of text never fails, and is the one specified *)
Lemma coerce_spec text :
  exists v, Training.coerce (JString text) = Ok v /\ coercion_of text v.
Proof.
  destruct (coerce_total text) as [v Hv]. exists v. split; [exact Hv|].
  split; [|split].
  - intros ip fp Hd. split; [|apply decimal_fraction_value].
    rewrite (coerce_float text ip fp Hd) in Hv. congruence.
  - intros ds Hd. rewrite (coerce_int text ds Hd) in Hv. congruence.
  - intros Hnf Hni.
    assert (Hf : match_anchored Training.is_float text = false).
    { destruct (match_anchored Training.is_float text) eqn:H; [|reflexivity].
      apply match_float_iff in H as (ip & fp & H).
      destruct (Hnf ip fp H). }
    assert (Hi : match_anchored Training.is_integer text = false).
    { destruct (match_anchored Training.is_integer text) eqn:H;
        [|reflexivity].
      apply match_integer_iff in H as (ds & H). destruct (Hni ds H). }
    rewrite (coerce_text text Hf Hi) in Hv. congruence.
Qed.

(** the loop stores, under every key, the coercion of the key's value and
    leaves the other keys alone *)
Lemma coerce_all_lookup (items : list (string * jvalue)) :
  forall h0 : gmap string value,
  NoDup (items.*1) ->
  (forall key v, (key, v) ∈ items -> exists text, v = JString text) ->
  exists h : gmap string value,
    Training.coerce_all items h0 = Ok h /\
    (forall key v, (key, v) ∈ items ->
       exists v', Training.coerce v = Ok v' /\ h !! key = Some v') /\
    (forall key, key ∉ items.*1 -> h !! key = h0 !! key).
Proof.
  induction items as [|[k v] rest IH]; intros h0 Hnd Htext.
  - exists h0. split; [reflexivity|]. split; [|reflexivity].
    intros key v Hin. apply elem_of_nil in Hin. contradiction.
  - rewrite fmap_cons in Hnd. apply NoDup_cons in Hnd as [Hk Hnd].
    destruct (Htext k v) as [text ->]; [left|].
    destruct (coerce_total text) as (v' & Hv').
    destruct (IH (<[k := v']> h0) Hnd) as (h & Hh & Hin & Hout).
    { intros key v Hkv. apply (Htext key v). right. exact Hkv. }
    exists h. split; [cbn [Training.coerce_all]; rewrite Hv'; exact Hh|].
    split.
    + intros key v Hkv. apply elem_of_cons in Hkv as [[= -> ->]|Hkv].
      * exists v'. split; [exact Hv'|].
        rewrite (Hout k Hk). apply lookup_insert_eq.
      * apply Hin. exact Hkv.
    + intros key Hkey. rewrite fmap_cons in Hkey.
      apply not_elem_of_cons in Hkey as [Hne Hkey].
      rewrite (Hout key Hkey). apply lookup_insert_ne. simpl in Hne. auto.
Qed.

(** C2. For every key/value pair of the hyperparameter file, the loop
    stores under the key: when the text is digits, a dot and digits, the
    binary64 number nearest to the number the text denotes (infinity when
    that number is beyond binary64); when the text is digits alone, the
    whole number it denotes; the text itself in every other case.  In the
    two number forms one final newline may follow the digits, which [$]
    lets through. *)
Theorem hyperparameter_coercion (items : list (string * jvalue)) :
  NoDup (items.*1) ->
  (forall key v, (key, v) ∈ items -> exists text, v = JString text) ->
  exists hyperparameters : gmap string value,
    Training.coerce_all items ∅ = Ok hyperparameters /\
    forall key text, (key, JString text) ∈ items ->
      exists v,
        Training.coerce (JString text) = Ok v /\
        hyperparameters !! key = Some v /\
        coercion_of text v.
Proof.
  intros Hnd Htext.
  destruct (coerce_all_lookup items ∅ Hnd Htext) as (h & Hh & Hin & _).
  exists h. split; [exact Hh|].
  intros key text Hkv.
  destruct (Hin key _ Hkv) as (v' & Hv' & Hl).
  destruct (coerce_spec text) as (v & Hv & Hspec).
  exists v. rewrite Hv in Hv'. injection Hv' as <-. auto.
Qed.

(** The coercion at work: whole numbers, decimal numbers, a whole number
    with the final newline that [$] lets through, and texts that stay
    text. *)
Example coerce_whole_number :
  Training.coerce (JString "120") = Ok (VInt 120).
Proof. reflexivity. Qed.

Example coerce_decimal_number :
  Training.coerce (JString "0.25")
  = Ok (VFloat (S754_finite false 4503599627370496 (-54))) /\
  is_exactly (S754_finite false 4503599627370496 (-54))
             (decimal_value ["0"%char] ["2"%char; "5"%char]) = true.
Proof. split; reflexivity. Qed.

(** [float] as the interpreter computes it: a tie goes to the even
    mantissa, the largest binary64 number is reached, and a number too
    small for binary64 becomes zero *)
Example float_tie_to_even :
  py_float "9007199254740993.0"
  = Ok (S754_finite false 4503599627370496 1).
Proof. vm_compute. reflexivity. Qed.

Example float_three_tenths :
  py_float "0.3" = Ok (S754_finite false 5404319552844595 (-54)).
Proof. vm_compute. reflexivity. Qed.

Example float_negative_zero :
  py_float "-0.0" = Ok (S754_zero true).
Proof. vm_compute. reflexivity. Qed.

Example float_without_fraction :
  py_float "120" = Ok (S754_finite false 8444249301319680 (-46)).
Proof. vm_compute. reflexivity. Qed.

Example float_smallest :
  round_binary64 false 5 (Z.to_pos (10 ^ 324))
  = S754_finite false 1 (-1074) /\
  round_binary64 false 1 (Z.to_pos (10 ^ 401)) = S754_zero false.
Proof. split; vm_compute; reflexivity. Qed.

(** C2, where the stored number is not the number the text denotes: one
    tenth is not a binary64 number, and the number next to it is stored; a
    one followed by four hundred zeros is beyond binary64, and infinity is
    stored.  And a text that is not digits only, for the newline at its
    end, is stored as a whole number. *)
Lemma hyperparameter_coercion_counterexample :
  (Training.coerce (JString "0.1")
   = Ok (VFloat (S754_finite false 7205759403792794 (-56))) /\
   is_exactly (S754_finite false 7205759403792794 (-56))
              (decimal_value ["0"%char] ["1"%char]) = false) /\
  (Regex.match_anchored Training.is_float Cases.beyond_binary64 = true /\
   Training.coerce (JString Cases.beyond_binary64)
   = Ok (VFloat (S754_infinity false)) /\
   exact_value (S754_infinity false) = None) /\
  (forallb Regex.is_digit (list_ascii_of_string ("12" +:+ nl)) = false /\
   Training.coerce (JString ("12" +:+ nl)) = Ok (VInt 12)).
Proof.
  split; [split; vm_compute; reflexivity|].
  split; [|split; vm_compute; reflexivity].
  split; [vm_compute; reflexivity|].
  split; [vm_compute; reflexivity|reflexivity].
Qed.

Example coerce_final_newline :
  Training.coerce (JString ("12" +:+ nl)) = Ok (VInt 12).
Proof. reflexivity. Qed.

Example coerce_negative_stays_text :
  Training.coerce (JString "-3") = Ok (VStr "-3").
Proof. reflexivity. Qed.

Example coerce_exponent_stays_text :
  Training.coerce (JString "1e5") = Ok (VStr "1e5").
Proof. reflexivity. Qed.

Example coerce_word_stays_text :
  Training.coerce (JString "gini") = Ok (VStr "gini").
Proof. reflexivity. Qed.

Example coerce_number_raises :
  Training.coerce JOther
  = Raise (TypeError "expected string or bytes-like object").
Proof. reflexivity. Qed.

Lemma hyperparameter_coercion_witness :
  exists hyperparameters : gmap string value,
    Training.coerce_all Sample.mixed_hyperparameters ∅
      = Ok hyperparameters /\
    forall key text,
      (key, JString text) ∈ Sample.mixed_hyperparameters ->
      exists v,
        Training.coerce (JString text) = Ok v /\
        hyperparameters !! key = Some v /\
        coercion_of text v.
Proof.
  apply (hyperparameter_coercion Sample.mixed_hyperparameters).
  - unfold Sample.mixed_hyperparameters. simpl.
    repeat (apply NoDup_cons; split;
            [rewrite ?elem_of_cons, elem_of_nil; intuition discriminate|]).
    apply NoDup_nil_2.
  - intros key v H. unfold Sample.mixed_hyperparameters in H.
    repeat (apply elem_of_cons in H as [[= -> ->]|H]; [eauto|]).
    apply elem_of_nil in H. contradiction.
Defined.

End coercion.

(** ** The training routine *)

Section training_facts.
Context `{L : Libs}.

Lemma keeps_ret {A} (a : A) : keeps (ret a).
Proof. intros w w' r [= <- <-]. auto. Qed.

Lemma keeps_raise {A} (e : exn) : keeps (@raise World A e).
Proof. intros w w' r [= <- <-]. auto. Qed.

Lemma keeps_lift {A} (x : result A) : keeps (lift x).
Proof. intros w w' r [= <- <-]. auto. Qed.

Lemma keeps_bind {A B} (c : M World A) (k : A -> M World B) :
  keeps c -> (forall a, keeps (k a)) -> keeps (bind c k).
Proof.
  intros Hc Hk w w' r. unfold bind.
  destruct (c w) as [w1 [a|e|n]] eqn:E; destruct (Hc _ _ _ E) as [Hf He].
  - intros Hka. destruct (Hk a _ _ _ Hka) as [Hf' He']. split; congruence.
  - intros [= <- <-]. auto.
  - intros [= <- <-]. auto.
Qed.

Lemma keeps_print line : keeps (print line).
Proof. intros w w' r [= <- <-]. auto. Qed.

Lemma keeps_count_fit : keeps count_fit.
Proof. intros w w' r [= <- <-]. auto. Qed.

Lemma keeps_read_file path : keeps (read_file path).
Proof.
  intros w w' r. unfold read_file.
  destruct (files w !! path); intros [= <- <-]; auto.
Qed.

Lemma keeps_listdir path : keeps (listdir path).
Proof.
  intros w w' r. unfold listdir.
  destruct (dirs w !! path); intros [= <- <-]; auto.
Qed.

Lemma keeps_read_csv path : keeps (read_csv path).
Proof.
  unfold read_csv. apply keeps_bind; [apply keeps_read_file|].
  intros [object|[|row rows]|m|text];
    first [apply keeps_raise | apply keeps_ret].
Qed.

Lemma keeps_for_each {A} (xs : list A) (body : A -> M World unit) :
  (forall x, keeps (body x)) -> keeps (for_each xs body).
Proof.
  intros Hb. induction xs as [|x xs IH]; simpl.
  - apply keeps_ret.
  - apply keeps_bind; auto.
Qed.

Lemma keeps_for_list {A B} (xs : list A) (f : A -> M World B) :
  (forall x, keeps (f x)) -> keeps (for_list xs f).
Proof.
  intros Hf. induction xs as [|x xs IH]; simpl.
  - apply keeps_ret.
  - apply keeps_bind; [apply Hf|]. intros y.
    apply keeps_bind; [apply IH|]. intros ys. apply keeps_ret.
Qed.

Lemma keeps_use g name : keeps (Training.use g name).
Proof.
  unfold Training.use.
  destruct (existsb _ _); [apply keeps_ret | apply keeps_raise].
Qed.

Lemma keeps_uses g names : keeps (Training.uses g names).
Proof. apply keeps_for_each. intros x. apply keeps_use. Qed.

Lemma keeps_unless_ok_bind {A} (c : M World A) (k : A -> M World unit) :
  keeps c -> (forall a, keeps_unless_ok (k a)) -> keeps_unless_ok (bind c k).
Proof.
  intros Hc Hk w w' r. unfold bind.
  destruct (c w) as [w1 [a|e|n]] eqn:E; destruct (Hc _ _ _ E) as [Hf He].
  - intros Hka. destruct (Hk a _ _ _ Hka) as [He' Hf'].
    split; [congruence|]. intros Hr. rewrite (Hf' Hr). exact Hf.
  - intros [= <- <-]. auto.
  - intros [= <- <-]. auto.
Qed.

Lemma keeps_unless_ok_keeps (c : M World unit) : keeps c -> keeps_unless_ok c.
Proof.
  intros Hc w w' r E. destruct (Hc _ _ _ E). auto.
Qed.

Lemma keeps_unless_ok_write path content :
  keeps_unless_ok (write_file path content).
Proof. intros w w' r [= <- <-]. split; [reflexivity|congruence]. Qed.

(** The statements under [try:] print nothing to the error stream, and
    write a file only as their last step. *)
Lemma body_keeps g : keeps_unless_ok (Training.body g).
Proof.
  unfold Training.body.
  repeat first
    [ apply keeps_unless_ok_write
    | apply keeps_unless_ok_bind;
        [ first [ apply keeps_uses | apply keeps_read_file | apply keeps_lift
                | apply keeps_listdir | apply keeps_print
                | apply keeps_count_fit
                | apply keeps_for_list; intros ?; apply keeps_read_csv ]
        | intros ? ]
    | match goal with
      | |- keeps_unless_ok (if ?b then _ else _) => destruct b
      end
    | apply keeps_unless_ok_keeps, keeps_raise ].
Qed.

(** The handler stops at its first statement: the module never imported
    [traceback]. *)
Lemma handler_name_error (e : exn) (w : World) :
  Training.handler Training.module_names e w
  = (w, Raise (NameError "traceback")).
Proof. reflexivity. Qed.

(** With [traceback] and [sys] imported the handler would write the report,
    print it to the error stream and exit with status 255. *)
Lemma handler_with_imports (e : exn) (w : World) :
  Training.handler ("traceback" :: "sys" :: Training.module_names) e w
  = (reported e w, Exit 255).
Proof. reflexivity. Qed.

End training_facts.

Section training_runs.
Context `{L : Libs}.

Lemma body_with_imports :
  Training.body ("traceback" :: "sys" :: Training.module_names)
  = Training.body Training.module_names.
Proof. reflexivity. Qed.

Lemma uses_ok names (w : World) :
  forallb (fun n => existsb (String.eqb n)
                      (Training.module_names ++ Training.builtin_names)) names
  = true ->
  Training.uses Training.module_names names w = (w, Ok tt).
Proof.
  unfold Training.uses.
  induction names as [|n names IH]; cbn [forallb]; intros H.
  - reflexivity.
  - apply andb_true_iff in H as [Hn H].
    cbn [for_each]. unfold bind, Training.use at 1. rewrite Hn.
    unfold ret at 1. apply IH, H.
Qed.

Lemma bind_ok {S A B} (c : M S A) (k : A -> M S B) s s' a :
  c s = (s', Ok a) -> bind c k s = k a s'.
Proof. intros H. unfold bind. rewrite H. reflexivity. Qed.

Lemma start_after_banner (w : World) :
  Training.start w
  = try_except (Training.body Training.module_names)
      (Training.handler Training.module_names) (after_banner w).
Proof. reflexivity. Qed.

(** Whatever the statements under [try:] raise, [start] ends with the
    [NameError] of its handler and has changed nothing but what those
    statements changed. *)
Lemma start_raises (w w' : World) (e : exn) :
  Training.body Training.module_names (after_banner w) = (w', Raise e) ->
  Training.start w = (w', Raise (NameError "traceback")).
Proof.
  intros H. rewrite start_after_banner. unfold try_except. rewrite H.
  apply handler_name_error.
Qed.

(** Had the module imported [traceback] and [sys], [start] would do what
    the specification says: report and exit with status 255. *)
Lemma start_with_imports (w w' : World) (e : exn) :
  Training.body Training.module_names (after_banner w) = (w', Raise e) ->
  Training.start_in ("traceback" :: "sys" :: Training.module_names) w
  = (reported e w', Exit 255).
Proof.
  intros H.
  change (Training.start_in ("traceback" :: "sys" :: Training.module_names) w)
    with (try_except
            (Training.body ("traceback" :: "sys" :: Training.module_names))
            (Training.handler ("traceback" :: "sys" :: Training.module_names))
            (after_banner w)).
  unfold try_except. rewrite body_with_imports, H.
  apply handler_with_imports.
Qed.

(** C1 (the code departs from the claim).  For every exception raised by
    the statements under [try:], the handler is entered and itself fails on
    its first statement with a [NameError]: [start] ends with that uncaught
    exception, the process status is 1 and not 255, no file has been written
    (so no failure report) and the program has printed nothing to the error
    stream. *)
Theorem training_exception_unreported (w : World) (e : exn) :
  snd (Training.body Training.module_names (after_banner w)) = Raise e ->
  Training.start w
  = (fst (Training.body Training.module_names (after_banner w)),
     Raise (NameError "traceback")) /\
  exit_status (snd (Training.start w)) = 1 /\
  files (fst (Training.start w)) = files w /\
  stderr (fst (Training.start w)) = stderr w.
Proof.
  intros He.
  destruct (Training.body Training.module_names (after_banner w))
    as [w' r] eqn:Hb.
  simpl in He. subst r.
  rewrite (start_raises w w' e Hb). simpl.
  destruct (body_keeps _ _ _ _ Hb) as [Herr Hfiles].
  repeat split; [rewrite Hfiles by discriminate; reflexivity | exact Herr].
Qed.

End training_runs.

Lemma training_exception_unreported_witness :
  Training.start Sample.no_hyperparameters
  = (after_banner Sample.no_hyperparameters, Raise (NameError "traceback")) /\
  exit_status (snd (Training.start Sample.no_hyperparameters)) = 1 /\
  files (fst (Training.start Sample.no_hyperparameters))
  = files Sample.no_hyperparameters /\
  stderr (fst (Training.start Sample.no_hyperparameters)) = [].
Proof.
  apply (training_exception_unreported Sample.no_hyperparameters
           (FileNotFoundError "/opt/ml/input/config/hyperparameters.json")).
  reflexivity.
Defined.

Section training_channels.
Context `{L : Libs}.

(** With readable hyperparameters and an empty channel, the statements
    under [try:] raise the configuration error at once: the world is as it
    was, so nothing was fitted. *)
Lemma body_empty_channel (w : World) items h train_names validation_names :
  files w !! "/opt/ml/input/config/hyperparameters.json"
    = Some (FJson items) ->
  Training.coerce_all items ∅ = Ok h ->
  dirs w !! "/opt/ml/input/data/train" = Some train_names ->
  dirs w !! "/opt/ml/input/data/validation" = Some validation_names ->
  train_names = [] \/ validation_names = [] ->
  Training.body Training.module_names w
  = (w, Raise (ValueError
                 (Training.no_files_message "/opt/ml/input/data/train"
                    "/opt/ml/input/data/validation"))).
Proof.
  intros Hf Hc Ht Hv Hempty.
  unfold Training.body.
  rewrite (bind_ok _ _ w w tt) by (apply uses_ok; reflexivity).
  rewrite (bind_ok _ _ w w tt) by (apply uses_ok; reflexivity).
  change Training.param_path with "/opt/ml/input/config/hyperparameters.json".
  rewrite (bind_ok (read_file _) _ w w (FJson items))
    by (unfold read_file; rewrite Hf; reflexivity).
  rewrite (bind_ok _ _ w w tt) by (apply uses_ok; reflexivity).
  rewrite (bind_ok _ _ w w items) by reflexivity.
  rewrite (bind_ok _ _ w w h) by (unfold lift; rewrite Hc; reflexivity).
  rewrite (bind_ok _ _ w w tt) by (apply uses_ok; reflexivity).
  change (path_join Training.input_path "train")
    with "/opt/ml/input/data/train".
  change (path_join Training.input_path "validation")
    with "/opt/ml/input/data/validation".
  rewrite (bind_ok (listdir _) _ w w train_names)
    by (unfold listdir; rewrite Ht; reflexivity).
  rewrite (bind_ok (listdir _) _ w w validation_names)
    by (unfold listdir; rewrite Hv; reflexivity).
  rewrite (bind_ok _ _ w w tt) by (apply uses_ok; reflexivity).
  rewrite !length_map.
  assert (Hb : (Nat.eqb (length train_names) 0
                || Nat.eqb (length validation_names) 0)%bool = true).
  { destruct Hempty as [-> | ->]; simpl; [reflexivity | apply orb_true_r]. }
  rewrite Hb.
  rewrite (bind_ok _ _ w w tt) by (apply uses_ok; reflexivity).
  reflexivity.
Qed.

(** C3 (the code departs from the claim).  With readable hyperparameters,
    when the train directory or the validation directory lists no file, the
    statements under [try:] raise a [ValueError] whose message names both
    directory paths, and [fit] has not been called.  But the handler then
    fails with its [NameError]: no failure report is written, the program
    prints nothing to the error stream, and the process status is 1, not
    255. *)
Theorem empty_channel_unreported (w : World) items h
    train_names validation_names :
  files w !! "/opt/ml/input/config/hyperparameters.json"
    = Some (FJson items) ->
  Training.coerce_all items ∅ = Ok h ->
  dirs w !! "/opt/ml/input/data/train" = Some train_names ->
  dirs w !! "/opt/ml/input/data/validation" = Some validation_names ->
  train_names = [] \/ validation_names = [] ->
  exists message,
    Training.body Training.module_names (after_banner w)
    = (after_banner w, Raise (ValueError message)) /\
    contains "/opt/ml/input/data/train" message = true /\
    contains "/opt/ml/input/data/validation" message = true /\
    Training.start w = (after_banner w, Raise (NameError "traceback")) /\
    fit_calls (fst (Training.start w)) = fit_calls w /\
    files (fst (Training.start w)) = files w /\
    stderr (fst (Training.start w)) = stderr w /\
    exit_status (snd (Training.start w)) = 1.
Proof.
  intros Hf Hc Ht Hv Hempty.
  pose proof (body_empty_channel (after_banner w) items h train_names
                validation_names Hf Hc Ht Hv Hempty) as Hb.
  eexists. split; [exact Hb|].
  rewrite (start_raises w _ _ Hb).
  repeat split; reflexivity.
Qed.

End training_channels.

Lemma empty_channel_unreported_witness :
  exists message,
    Training.body Training.module_names (after_banner Sample.empty_train)
    = (after_banner Sample.empty_train, Raise (ValueError message)) /\
    contains "/opt/ml/input/data/train" message = true /\
    contains "/opt/ml/input/data/validation" message = true /\
    Training.start Sample.empty_train
    = (after_banner Sample.empty_train, Raise (NameError "traceback")) /\
    fit_calls (fst (Training.start Sample.empty_train)) = 0%nat /\
    files (fst (Training.start Sample.empty_train))
    = files Sample.empty_train /\
    stderr (fst (Training.start Sample.empty_train)) = [] /\
    exit_status (snd (Training.start Sample.empty_train)) = 1.
Proof.
  apply (empty_channel_unreported Sample.empty_train Sample.hyperparameters
           (<["n_estimators" := VInt 120]>
              (<["n_jobs" := VInt 5]> (<["max_depth" := VInt 11]> ∅)))
           [] ["validation.csv"]).
  - reflexivity.
  - reflexivity.
  - reflexivity.
  - reflexivity.
  - left. reflexivity.
Defined.

(** ** The model artifact *)

Section artifact.
Context `{L : Libs}.

Lemma leaves_model_bind {A} path (c : M World A) (k : A -> M World unit) :
  (forall a, leaves_model path (k a)) -> leaves_model path (bind c k).
Proof.
  intros Hk w w'. unfold bind.
  destruct (c w) as [w1 [a|e|n]]; [apply Hk | discriminate | discriminate].
Qed.

Lemma leaves_model_raise path e : leaves_model path (raise e).
Proof. intros w w'. discriminate. Qed.

Lemma leaves_model_write path m :
  leaves_model path (write_file path (FPickle m)).
Proof.
  intros w w' [= <-]. exists m. simpl. apply lookup_insert_eq.
Qed.

(** The training script writes its model to [iris_model.pkl] in the model
    directory, as the last of the statements under [try:]. *)
Lemma body_leaves_model g :
  leaves_model "/opt/ml/model/iris_model.pkl" (Training.body g).
Proof.
  unfold Training.body.
  repeat first
    [ apply leaves_model_write
    | apply leaves_model_raise
    | apply leaves_model_bind; intros ?
    | match goal with
      | |- leaves_model _ (if ?b then _ else _) => destruct b
      end ].
Qed.

Lemma start_leaves_model :
  leaves_model "/opt/ml/model/iris_model.pkl" Training.start.
Proof.
  intros w w'. rewrite start_after_banner. unfold try_except.
  destruct (Training.body Training.module_names (after_banner w))
    as [w1 [[]|e|n]] eqn:Hb.
  - intros [= <-]. exact (body_leaves_model _ _ _ Hb).
  - rewrite handler_name_error. discriminate.
  - discriminate.
Qed.

(** C9.  Training writes the fitted model to [iris_model.pkl] under the
    model directory [/opt/ml/model] and the serving loader reads
    [iris_model.pkl] from its model directory: after a training run that
    returned normally, the loader given that directory (with or without a
    final slash) returns the very model the run wrote. *)
Theorem artifact_written_is_loaded (w : World) :
  snd (Training.start w) = Ok tt ->
  path_join Training.model_path "iris_model.pkl"
    = "/opt/ml/model/iris_model.pkl" /\
  exists m : Model,
    files (fst (Training.start w)) !! "/opt/ml/model/iris_model.pkl"
      = Some (FPickle m) /\
    Inference.default_model_fn (fst (Training.start w)) Training.model_path
      = Ok m /\
    Inference.default_model_fn (fst (Training.start w)) "/opt/ml/model/"
      = Ok m.
Proof.
  intros Hok. split; [reflexivity|].
  destruct (Training.start w) as [w' r] eqn:Hs. simpl in Hok. subst r.
  destruct (start_leaves_model w w' Hs) as [m Hm].
  exists m. simpl fst. split; [exact Hm|].
  unfold Inference.default_model_fn.
  change (path_join Training.model_path "iris_model.pkl")
    with "/opt/ml/model/iris_model.pkl".
  change (path_join "/opt/ml/model/" "iris_model.pkl")
    with "/opt/ml/model/iris_model.pkl".
  rewrite Hm. split; reflexivity.
Qed.

End artifact.

Lemma artifact_written_is_loaded_witness :
  path_join Training.model_path "iris_model.pkl"
    = "/opt/ml/model/iris_model.pkl" /\
  exists m : @Model Sample.libs,
    files (fst (Training.start Sample.local_test))
      !! "/opt/ml/model/iris_model.pkl" = Some (FPickle m) /\
    Inference.default_model_fn (fst (Training.start Sample.local_test))
      Training.model_path = Ok m /\
    Inference.default_model_fn (fst (Training.start Sample.local_test))
      "/opt/ml/model/" = Ok m.
Proof.
  apply (artifact_written_is_loaded Sample.local_test).
  reflexivity.
Defined.

(** ** The dispatcher *)

Section dispatcher.
Context `{L : Libs}.

Lemma main_train (argv : list string) (p : Inference.Process) :
  nth_error argv 1 = Some "train" ->
  Inference.main argv p
  = (Inference.mkProcess (fst (Training.start (Inference.world p)))
       (Inference.invoked p ++ [Inference.TrainingStart]),
     snd (Training.start (Inference.world p))).
Proof.
  destruct argv as [|prog [|arg rest]]; try discriminate.
  intros [= ->]. unfold Inference.main. simpl.
  unfold bind, Inference.invoke, modify, Inference.in_world. simpl.
  destruct (Training.start (Inference.world p)) as [w' [[]|e|n]]; reflexivity.
Qed.

Lemma main_serve (argv : list string) (p : Inference.Process) :
  nth_error argv 1 = Some "serve" ->
  Inference.main argv p
  = (Inference.mkProcess (Inference.world p)
       (Inference.invoked p
        ++ [Inference.StartModelServer
              "/opt/program/inference_handler.py:handle"]),
     Ok tt).
Proof.
  destruct argv as [|prog [|arg rest]]; try discriminate.
  intros [= ->]. reflexivity.
Qed.

Lemma main_usage (argv : list string) (p : Inference.Process) :
  nth_error argv 1 <> Some "train" ->
  nth_error argv 1 <> Some "serve" ->
  Inference.main argv p = (p, Raise (Exception Inference.usage)).
Proof.
  intros Htrain Hserve.
  destruct argv as [|prog [|arg rest]]; try reflexivity.
  simpl in Htrain, Hserve. unfold Inference.main. simpl.
  destruct (String.eqb_spec arg "serve") as [->|_]; [congruence|].
  destruct (String.eqb_spec arg "train") as [->|_]; [congruence|].
  reflexivity.
Qed.

(** C4.  Given the single argument [train] the dispatcher invokes the
    training routine and nothing else, and ends as that routine ends; given
    [serve] it invokes the start of the model server and nothing else; given
    no argument or any other argument it raises the usage error with nothing
    invoked and the world untouched. *)
Theorem dispatcher_selects_one_path (prog : string) (w : World) :
  let p := Inference.mkProcess w [] in
  Inference.main [prog; "train"] p
  = (Inference.mkProcess (fst (Training.start w)) [Inference.TrainingStart],
     snd (Training.start w)) /\
  Inference.main [prog; "serve"] p
  = (Inference.mkProcess w
       [Inference.StartModelServer "/opt/program/inference_handler.py:handle"],
     Ok tt) /\
  Inference.main [prog] p = (p, Raise (Exception Inference.usage)) /\
  Inference.main [] p = (p, Raise (Exception Inference.usage)) /\
  forall arg rest,
    arg <> "train" -> arg <> "serve" ->
    Inference.main (prog :: arg :: rest) p
    = (p, Raise (Exception Inference.usage)).
Proof.
  intros p. split; [|split; [|split; [|split]]].
  - apply (main_train [prog; "train"] p). reflexivity.
  - apply (main_serve [prog; "serve"] p). reflexivity.
  - reflexivity.
  - reflexivity.
  - intros arg rest Htrain Hserve. apply main_usage; simpl; congruence.
Qed.

End dispatcher.

Lemma dispatcher_selects_one_path_witness :
  Inference.main ["inference_handler.py"; "predict"]
    (Inference.mkProcess Sample.local_test [])
  = (Inference.mkProcess Sample.local_test [],
     Raise (Exception Inference.usage)).
Proof.
  apply (dispatcher_selects_one_path "inference_handler.py" Sample.local_test);
    discriminate.
Defined.

(** ** The handler service, step by step *)

Section service_facts.
Context `{L : Libs}.
Import Inference.

Lemma validate_ready (w : World) dir (s : Service) :
  initialized s = true -> validate_and_initialize w dir s = (s, Ok tt).
Proof.
  intros Hi. unfold validate_and_initialize, bind, gets. rewrite Hi. reflexivity.
Qed.

Lemma validate_fresh (w : World) dir (s : Service) :
  initialized s = false ->
  validate_and_initialize w dir s
  = match default_model_fn w dir with
    | Ok m => (set_loaded m (count_model_load s), Ok tt)
    | Raise e => (count_model_load s, Raise e)
    | Exit n => (count_model_load s, Exit n)
    end.
Proof.
  intros Hi. unfold validate_and_initialize, bind, gets, modify, lift.
  rewrite Hi. destruct (default_model_fn w dir); reflexivity.
Qed.

Lemma handle_ready (w : World) data context (s : Service) :
  initialized s = true ->
  handle w data context s
  = match data with
    | None => (s, Ok None)
    | Some request =>
        match loaded_model s with
        | Some m =>
            bind (transform_fn m (body request) (content_type request)
                    (accept request))
                 (fun response => ret (Some response)) (count_transform s)
        | None => (count_transform s, Raise (LibraryError "model not loaded"))
        end
    end.
Proof.
  intros Hi. unfold handle.
  rewrite (bind_ok _ _ s s true) by (unfold gets; rewrite Hi; reflexivity).
  simpl negb. cbv iota.
  rewrite (bind_ok _ _ s s tt) by reflexivity.
  destruct data as [request|]; [|reflexivity].
  unfold service_handle.
  unfold bind at 1. unfold bind at 1.
  unfold modify at 1.
  unfold bind at 1.
  rewrite validate_ready by exact Hi.
  unfold bind at 1. unfold gets at 1.
  change (loaded_model (count_transform s)) with (loaded_model s).
  destruct (loaded_model s) as [m|]; reflexivity.
Qed.

Lemma handle_fresh (w : World) data context (s : Service) :
  initialized s = false ->
  handle w data context s
  = match default_model_fn w (model_dir context) with
    | Ok m =>
        handle w data context
          (set_loaded m (count_model_load (count_initialize s)))
    | Raise e => (count_model_load (count_initialize s), Raise e)
    | Exit n => (count_model_load (count_initialize s), Exit n)
    end.
Proof.
  intros Hi.
  destruct (default_model_fn w (model_dir context)) as [m|e|n] eqn:Hm.
  - rewrite (handle_ready w data context (set_loaded m _)) by reflexivity.
    unfold handle.
    rewrite (bind_ok _ _ s s false) by (unfold gets; rewrite Hi; reflexivity).
    simpl negb. cbv iota.
    rewrite (bind_ok _ _ s (set_loaded m (count_model_load (count_initialize s))) tt).
    2:{ unfold initialize. rewrite (bind_ok _ _ s (count_initialize s) tt) by reflexivity.
        rewrite validate_fresh by exact Hi. rewrite Hm. reflexivity. }
    destruct data as [request|]; [|reflexivity].
    unfold service_handle.
    unfold bind at 1. unfold bind at 1.
    unfold modify at 1.
    unfold bind at 1.
    rewrite validate_ready by reflexivity.
    unfold bind at 1. unfold gets at 1.
    reflexivity.
  - unfold handle.
    rewrite (bind_ok _ _ s s false) by (unfold gets; rewrite Hi; reflexivity).
    simpl negb. cbv iota.
    unfold bind at 1. unfold initialize.
    rewrite (bind_ok _ _ s (count_initialize s) tt) by reflexivity.
    rewrite validate_fresh by exact Hi. rewrite Hm. reflexivity.
  - unfold handle.
    rewrite (bind_ok _ _ s s false) by (unfold gets; rewrite Hi; reflexivity).
    simpl negb. cbv iota.
    unfold bind at 1. unfold initialize.
    rewrite (bind_ok _ _ s (count_initialize s) tt) by reflexivity.
    rewrite validate_fresh by exact Hi. rewrite Hm. reflexivity.
Qed.
End service_facts.

(** ** Content negotiation *)

Section negotiation.
Context `{L : Libs}.

Lemma prefix_refl (text : string) : String.prefix text text = true.
Proof.
  induction text as [|c text IH]; simpl; [reflexivity|].
  destruct (ascii_dec c c); [exact IH | congruence].
Qed.

(** a message that ends with [text] names [text] *)
Lemma contains_suffix (front text : string) :
  contains text (front +:+ text) = true.
Proof.
  induction front as [|c front IH]; simpl.
  - destruct text; simpl; [reflexivity|].
    apply orb_true_iff. left.
    change (String.prefix (String a text) (String a text) = true).
    apply prefix_refl.
  - rewrite IH. apply orb_true_r.
Qed.

Lemma input_fn_rejects (input_data content_type : string) :
  content_type <> "text/csv" ->
  Inference.default_input_fn input_data content_type
  = Raise (Exception ("Invalid content-type: " +:+ content_type)).
Proof.
  intros Hne. unfold Inference.default_input_fn.
  destruct (String.eqb_spec content_type "text/csv"); [contradiction|].
  reflexivity.
Qed.

Lemma output_fn_rejects (prediction : list cell) (accept : string) :
  accept <> "text/csv" ->
  Inference.default_output_fn prediction accept
  = Raise (Exception ("Invalid accept: " +:+ accept)).
Proof.
  intros Hne. unfold Inference.default_output_fn.
  destruct (String.eqb_spec accept "text/csv"); [contradiction|].
  reflexivity.
Qed.

(** the transform, step by step *)
Lemma transform_fn_steps (m : Model) (input_data content_type accept : string)
    (s : Inference.Service) :
  Inference.transform_fn m input_data content_type accept s
  = match Inference.default_input_fn input_data content_type with
    | Ok payload =>
        match Inference.model_predict m payload with
        | Ok prediction =>
            (Inference.log_predict payload s,
             Inference.default_output_fn prediction accept)
        | Raise e => (Inference.log_predict payload s, Raise e)
        | Exit n => (Inference.log_predict payload s, Exit n)
        end
    | Raise e => (s, Raise e)
    | Exit n => (s, Exit n)
    end.
Proof.
  unfold Inference.transform_fn, Inference.default_predict_fn,
    bind, modify, lift.
  destruct (Inference.default_input_fn input_data content_type)
    as [payload| |]; reflexivity.
Qed.

(** C5.  For every request whose content type is not [text/csv], the
    input function raises an exception whose message names that content
    type, and the request is over with the model's [predict] not called:
    the transform leaves the service as it found it, and so does [handle]
    as far as the log of [predict] goes. *)
Theorem content_type_rejected (w : World) (context : Inference.Context)
    (m : Model) (request : Inference.Request) (s : Inference.Service) :
  Inference.content_type request <> "text/csv" ->
  let message :=
    "Invalid content-type: " +:+ Inference.content_type request in
  Inference.default_input_fn (Inference.body request)
    (Inference.content_type request) = Raise (Exception message) /\
  contains (Inference.content_type request) message = true /\
  Inference.transform_fn m (Inference.body request)
    (Inference.content_type request) (Inference.accept request) s
  = (s, Raise (Exception message)) /\
  Inference.predict_log
    (fst (Inference.handle w (Some request) context s))
  = Inference.predict_log s /\
  (Inference.initialized s = true ->
   Inference.loaded_model s = Some m ->
   snd (Inference.handle w (Some request) context s)
   = Raise (Exception message)).
Proof.
  intros Hne message.
  pose proof (input_fn_rejects (Inference.body request) _ Hne) as Hin.
  assert (Ht : forall m' s', Inference.transform_fn m' (Inference.body request)
            (Inference.content_type request) (Inference.accept request) s'
          = (s', Raise (Exception message))).
  { intros m' s'. rewrite transform_fn_steps, Hin. reflexivity. }
  split; [exact Hin|]. split; [apply contains_suffix|].
  split; [apply Ht|].
  assert (Hready : forall s', Inference.initialized s' = true ->
            Inference.handle w (Some request) context s'
            = match Inference.loaded_model s' with
              | Some _ =>
                  (Inference.count_transform s', Raise (Exception message))
              | None =>
                  (Inference.count_transform s',
                   Raise (LibraryError "model not loaded"))
              end).
  { intros s' Hi. rewrite handle_ready by exact Hi.
    destruct (Inference.loaded_model s') as [m'|]; [|reflexivity].
    unfold bind. rewrite Ht. reflexivity. }
  split.
  - destruct (Inference.initialized s) eqn:Hi.
    + rewrite Hready by exact Hi.
      destruct (Inference.loaded_model s); reflexivity.
    + rewrite handle_fresh by exact Hi.
      destruct (Inference.default_model_fn w (Inference.model_dir context))
        as [m'| |]; try reflexivity.
      rewrite Hready by reflexivity. reflexivity.
  - intros Hi Hm. rewrite Hready by exact Hi. rewrite Hm. reflexivity.
Qed.

(** C6.  For every accept type that is not [text/csv], the output function
    raises an exception whose message names that accept type.  It is called
    with the prediction: in a request that the input function and the model
    accept, [predict] has been called on the decoded payload when the
    exception is raised; and no request with such an accept type is answered
    with a response. *)
Theorem accept_rejected (m : Model) (input_data content_type accept : string)
    (s : Inference.Service) :
  accept <> "text/csv" ->
  let message := "Invalid accept: " +:+ accept in
  (forall prediction,
     Inference.default_output_fn prediction accept
     = Raise (Exception message)) /\
  contains accept message = true /\
  (forall response,
     snd (Inference.transform_fn m input_data content_type accept s)
     <> Ok response) /\
  (forall payload prediction,
     Inference.default_input_fn input_data content_type = Ok payload ->
     Inference.model_predict m payload = Ok prediction ->
     Inference.transform_fn m input_data content_type accept s
     = (Inference.log_predict payload s, Raise (Exception message)) /\
     Inference.predict_log (Inference.log_predict payload s)
     = Inference.predict_log s ++ [payload]).
Proof.
  intros Hne message.
  assert (Hout : forall prediction,
            Inference.default_output_fn prediction accept
            = Raise (Exception message))
    by (intros prediction; apply output_fn_rejects, Hne).
  split; [exact Hout|]. split; [apply contains_suffix|]. split.
  - intros response. rewrite transform_fn_steps.
    destruct (Inference.default_input_fn input_data content_type)
      as [payload| |]; try discriminate.
    destruct (Inference.model_predict m payload) as [prediction| |];
      try discriminate.
    rewrite Hout. discriminate.
  - intros payload prediction Hin Hp.
    rewrite transform_fn_steps, Hin, Hp, Hout. split; reflexivity.
Qed.

End negotiation.

(** ** CSV in, CSV out *)

Section csv_facts.
Context `{L : Libs} {Laws : LibsLaws L}.
Import Inference.

Lemma split_on_absent sep text :
  occurs sep text = false -> split_on sep text = [text].
Proof.
  induction text as [|c rest IH]; simpl; [reflexivity|].
  intros H. apply orb_false_iff in H as [Hc Hrest].
  rewrite Hc, (IH Hrest). reflexivity.
Qed.

Lemma split_on_app sep front back :
  occurs sep front = false ->
  split_on sep (front +:+ String sep back) = front :: split_on sep back.
Proof.
  induction front as [|c rest IH]; simpl.
  - intros _. rewrite Ascii.eqb_refl. reflexivity.
  - intros H. apply orb_false_iff in H as [Hc Hrest].
    rewrite Hc, (IH Hrest). reflexivity.
Qed.

Lemma concat_cons sep field next fields :
  String.concat (String sep EmptyString) (field :: next :: fields)
  = field +:+ String sep
      (String.concat (String sep EmptyString) (next :: fields)).
Proof. reflexivity. Qed.

Lemma split_on_concat sep fields :
  fields <> [] ->
  Forall (fun f => occurs sep f = false) fields ->
  split_on sep (String.concat (String sep EmptyString) fields) = fields.
Proof.
  induction fields as [|field [|next fields] IH]; intros Hne Hall.
  - congruence.
  - simpl. apply split_on_absent. inversion Hall; assumption.
  - rewrite concat_cons. inversion Hall as [|? ? Hf Hrest]; subst.
    rewrite (split_on_app sep field _ Hf).
    rewrite IH; [reflexivity | discriminate | exact Hrest].
Qed.

Lemma occurs_app a front back :
  occurs a (front +:+ back) = occurs a front || occurs a back.
Proof.
  induction front as [|c rest IH]; simpl; [reflexivity|].
  rewrite IH. apply orb_assoc.
Qed.

Lemma occurs_concat a sep fields :
  Forall (fun f => occurs a f = false) fields ->
  occurs a sep = false ->
  occurs a (String.concat sep fields) = false.
Proof.
  intros Hall Hsep.
  induction fields as [|field [|next fields] IH]; [reflexivity| |].
  - simpl. inversion Hall; assumption.
  - change (String.concat sep (field :: next :: fields))
      with (field +:+ sep +:+ String.concat sep (next :: fields)).
    inversion Hall as [|? ? Hf Hrest]; subst.
    rewrite !occurs_app, Hf, Hsep, (IH Hrest). reflexivity.
Qed.

Lemma show_no_comma c : occurs "," (show_cell c) = false.
Proof.
  pose proof (show_clean c) as H. simpl in H.
  apply andb_true_iff in H as [H _]. apply negb_true_iff in H. exact H.
Qed.

Lemma show_no_newline c : occurs newline (show_cell c) = false.
Proof.
  pose proof (show_clean c) as H. cbn [forallb csv_special] in H.
  apply andb_true_iff in H as [_ H].
  apply andb_true_iff in H as [H _]. apply negb_true_iff in H. exact H.
Qed.

Lemma parse_cells_show row : parse_cells (map show_cell row) = Ok row.
Proof.
  induction row as [|c row IH]; simpl; [reflexivity|].
  rewrite parse_show, IH. reflexivity.
Qed.

Lemma nonempty_app front back :
  front <> EmptyString -> nonempty (front +:+ back) = true.
Proof. destruct front; [congruence|reflexivity]. Qed.

(** the CSV text of a row *)
Lemma csv_row_nonempty c row :
  nonempty (String.concat "," (map show_cell (c :: row))) = true.
Proof.
  destruct row as [|c' row]; simpl map.
  - simpl. pose proof (show_nonempty c). destruct (show_cell c); [congruence|reflexivity].
  - rewrite concat_cons. apply nonempty_app, show_nonempty.
Qed.


Lemma Forall_show (P : string -> Prop) row :
  (forall c, P (show_cell c)) -> Forall P (map show_cell row).
Proof. intros H. induction row; simpl; constructor; auto. Qed.

Lemma parse_row row :
  row <> [] ->
  parse_lines
    (List.filter nonempty
       (split_on newline (String.concat "," (map show_cell row))))
  = Ok [row].
Proof.
  intros Hne.
  rewrite split_on_absent
    by (apply occurs_concat; [apply Forall_show, show_no_newline|reflexivity]).
  destruct row as [|c row]; [congruence|].
  cbn [List.filter]. rewrite csv_row_nonempty.
  cbn [parse_lines].
  rewrite split_on_concat;
    [|discriminate|apply Forall_show, show_no_comma].
  rewrite parse_cells_show. reflexivity.
Qed.

(** decoding the CSV text of a row and reshaping gives the row as the one
    sample of a two-dimensional array *)
Lemma input_fn_row row :
  default_input_fn (String.concat "," (map show_cell row)) "text/csv"
  = Ok (mkArray [1%nat; length row] row).
Proof.
  unfold default_input_fn, decoder_decode, csv_to_numpy. cbn [String.eqb negb].
  change (("text/csv" =? "text/csv")%string) with true. cbv iota. 
  destruct row as [|c row]; [reflexivity|].
  rewrite parse_row by discriminate.
  cbn [rbind forallb]. rewrite Nat.eqb_refl. cbn [andb].
  unfold reshape_one_row, squeeze. cbn [data concat].
  rewrite app_nil_r. reflexivity.
Qed.

Lemma chunks_one_row row : chunks 1 (length row) row = [row].
Proof. simpl. rewrite firstn_all. reflexivity. Qed.

Lemma predict_one_row m row ys :
  predict m [row] = Ok ys -> exists label, ys = [label].
Proof.
  intros H. apply predict_length in H.
  destruct ys as [|label [|]]; try discriminate. eauto.
Qed.

Lemma decode_label label :
  csv_to_numpy (show_cell label +:+ nl) = Ok (mkArray [] [label]).
Proof.
  unfold csv_to_numpy, nl.
  rewrite (split_on_app newline (show_cell label) EmptyString)
    by apply show_no_newline.
  cbn [split_on List.filter nonempty].
  pose proof (csv_row_nonempty label []) as Hn. cbn [map String.concat] in Hn.
  rewrite Hn. cbn [parse_lines].
  rewrite split_on_absent by apply show_no_comma.
  cbn [parse_cells]. rewrite parse_show. reflexivity.
Qed.

(** C7.  For every feature row, written as CSV and sent with content type
    [text/csv] and accept type [text/csv], the pipeline decodes the text
    into an array whose one sample is the row, calls [predict] on it, and
    answers with the CSV text of a single element; reading that text back
    gives the label the model predicted for the row. *)
Theorem csv_round_trip (w : World) (context : Context) (m : Model)
    (row ys : list cell) (s : Service) :
  predict m [row] = Ok ys ->
  let input_data := String.concat "," (map show_cell row) in
  let payload := mkArray [1%nat; length row] row in
  exists label,
    ys = [label] /\
    default_input_fn input_data "text/csv" = Ok payload /\
    transform_fn m input_data "text/csv" "text/csv" s
    = (log_predict payload s, Ok (show_cell label +:+ nl)) /\
    csv_to_numpy (show_cell label +:+ nl) = Ok (mkArray [] [label]) /\
    (initialized s = true -> loaded_model s = Some m ->
     handle w (Some (mkRequest input_data "text/csv" "text/csv")) context s
     = (log_predict payload (count_transform s),
        Ok (Some (show_cell label +:+ nl)))).
Proof.
  intros Hp input_data payload.
  destruct (predict_one_row m row ys Hp) as [label ->].
  exists label. split; [reflexivity|].
  pose proof (input_fn_row row) as Hin. fold input_data payload in Hin.
  split; [exact Hin|].
  assert (Ht : forall s', transform_fn m input_data "text/csv" "text/csv" s'
                 = (log_predict payload s', Ok (show_cell label +:+ nl))).
  { intros s'. rewrite transform_fn_steps, Hin.
    unfold model_predict, payload. cbn [shape data].
    rewrite chunks_one_row, Hp. reflexivity. }
  split; [apply Ht|]. split; [apply decode_label|].
  intros Hi Hm. rewrite handle_ready by exact Hi. rewrite Hm.
  cbn [body content_type accept]. unfold bind. rewrite Ht. reflexivity.
Qed.

End csv_facts.

(** ** Lazy initialization *)

Section lazy_initialization.
Context `{L : Libs}.
Import Inference.

(** an invocation on an initialized service neither initializes nor loads *)
Lemma handle_ready_state (w : World) data context (s : Service) :
  initialized s = true ->
  initialized (fst (handle w data context s)) = true /\
  loaded_model (fst (handle w data context s)) = loaded_model s /\
  initialize_calls (fst (handle w data context s)) = initialize_calls s /\
  model_loads (fst (handle w data context s)) = model_loads s.
Proof.
  intros Hi. rewrite handle_ready by exact Hi.
  destruct data as [request|]; [|auto].
  destruct (loaded_model s) as [m|] eqn:Hm; [|simpl; auto].
  unfold bind. rewrite transform_fn_steps.
  destruct (default_input_fn _ _) as [payload| |]; [|simpl; auto..].
  destruct (model_predict m payload) as [prediction| |]; [|simpl; auto..].
  destruct (default_output_fn prediction _); simpl; auto.
Qed.

(** an invocation on a service that is not initialized calls [initialize]
    once, which tries to load the model once *)
Lemma handle_fresh_state (w : World) data context (s : Service) :
  initialized s = false ->
  initialize_calls (fst (handle w data context s)) = S (initialize_calls s) /\
  model_loads (fst (handle w data context s)) = S (model_loads s) /\
  forall m, default_model_fn w (model_dir context) = Ok m ->
    initialized (fst (handle w data context s)) = true /\
    loaded_model (fst (handle w data context s)) = Some m.
Proof.
  intros Hi. rewrite handle_fresh by exact Hi.
  destruct (default_model_fn w (model_dir context)) as [m|e|n].
  - set (s1 := set_loaded m (count_model_load (count_initialize s))).
    destruct (handle_ready_state w data context s1 eq_refl)
      as (H1 & H2 & H3 & H4).
    rewrite H3, H4. split; [reflexivity|]. split; [reflexivity|].
    intros m' [= <-]. split; [exact H1 | rewrite H2; reflexivity].
  - split; [reflexivity|]. split; [reflexivity|]. intros m' [=].
  - split; [reflexivity|]. split; [reflexivity|]. intros m' [=].
Qed.

(** once initialized, the service stays so through any invocations, and
    every one of them is served *)
Lemma serve_ready (w : World) context invocations : forall s : Service,
  initialized s = true ->
  initialized (fst (serve w context invocations s)) = true /\
  loaded_model (fst (serve w context invocations s)) = loaded_model s /\
  initialize_calls (fst (serve w context invocations s))
    = initialize_calls s /\
  model_loads (fst (serve w context invocations s)) = model_loads s /\
  map fst (snd (serve w context invocations s))
    = repeat true (length invocations).
Proof.
  induction invocations as [|data rest IH]; intros s Hi; [simpl; auto|].
  cbn [serve].
  destruct (handle_ready_state w data context s Hi) as (H1 & H2 & H3 & H4).
  destruct (handle w data context s) as [s' outcome]. cbn [fst] in *.
  rewrite H1.
  destruct (IH s' H1) as (I1 & I2 & I3 & I4 & I5).
  destruct (serve w context rest s') as [s'' log]. cbn [fst snd map] in *.
  rewrite Hi, I5.
  split; [exact I1|]. split; [congruence|]. split; [congruence|].
  split; [congruence|reflexivity].
Qed.

(** C8.  In a serving process that starts with the fresh handler service,
    whatever the invocations of [handle]: [initialize] is called at most
    once, and so is the model loader; both are called in the first
    invocation, which finds the service not initialized, and every later
    invocation finds it initialized.  When the artifact can be loaded, all
    invocations are served and the service ends initialized with that
    model. *)
Theorem lazy_initialization_once (w : World) (context : Context)
    (invocations : list (option Request)) :
  let run := serve w context invocations fresh_service in
  (initialize_calls (fst run) <= 1)%nat /\
  (model_loads (fst run) <= 1)%nat /\
  forall first rest, invocations = first :: rest ->
    initialize_calls (fst run) = 1%nat /\
    model_loads (fst run) = 1%nat /\
    exists n,
      map fst (snd run) = false :: repeat true n /\
      (n <= length rest)%nat /\
      forall m, default_model_fn w (model_dir context) = Ok m ->
        n = length rest /\
        initialized (fst run) = true /\
        loaded_model (fst run) = Some m.
Proof.
  intros run. subst run.
  destruct invocations as [|first rest].
  - simpl. split; [lia|]. split; [lia|]. intros ? ? [=].
  - cbn [serve].
    destruct (handle_fresh_state w first context fresh_service eq_refl)
      as (H1 & H2 & H3).
    destruct (handle w first context fresh_service) as [s1 outcome].
    cbn [fst] in *.
    destruct (initialized s1) eqn:Hi1.
    + destruct (serve_ready w context rest s1 Hi1)
        as (I1 & I2 & I3 & I4 & I5).
      destruct (serve w context rest s1) as [s2 log]. cbn [fst snd map] in *.
      rewrite I3, I4, H1, H2. simpl.
      split; [lia|]. split; [lia|].
      intros first' rest' [= <- <-].
      split; [reflexivity|]. split; [reflexivity|].
      exists (length rest). rewrite I5.
      split; [reflexivity|]. split; [lia|].
      intros m Hm. split; [reflexivity|]. split; [exact I1|].
      rewrite I2. apply (H3 m Hm).
    + cbn [fst snd]. rewrite H1, H2. simpl.
      split; [lia|]. split; [lia|].
      intros first' rest' [= <- <-].
      split; [reflexivity|]. split; [reflexivity|].
      exists 0%nat. split; [reflexivity|]. split; [lia|].
      intros m Hm. destruct (H3 m Hm) as [Hready _]. congruence.
Qed.

(** C10.  Invoked with no payload, [handle] does not ask the transformer
    for anything.  On an initialized service it returns [None] and changes
    nothing.  On a service that is not initialized it first calls
    [initialize], which tries to load the model; when the model loads,
    [handle] returns [None] with the service initialized, and when loading
    raises, so does [handle]. *)
Theorem none_payload_skips_transformer (w : World) (context : Context)
    (s : Service) :
  let run := handle w None context s in
  transform_calls (fst run) = transform_calls s /\
  predict_log (fst run) = predict_log s /\
  (initialized s = true -> run = (s, Ok None)) /\
  (initialized s = false ->
   initialize_calls (fst run) = S (initialize_calls s) /\
   model_loads (fst run) = S (model_loads s) /\
   (forall m, default_model_fn w (model_dir context) = Ok m ->
      run = (set_loaded m (count_model_load (count_initialize s)), Ok None)) /\
   (forall e, default_model_fn w (model_dir context) = Raise e ->
      snd run = Raise e /\ initialized (fst run) = false)).
Proof.
  intros run. subst run.
  destruct (initialized s) eqn:Hi.
  - rewrite handle_ready by exact Hi.
    split; [reflexivity|]. split; [reflexivity|].
    split; [reflexivity|discriminate].
  - rewrite handle_fresh by exact Hi.
    split; [|split; [|split; [discriminate|intros _]]].
    + destruct (default_model_fn w (model_dir context));
        [rewrite handle_ready by reflexivity|..]; reflexivity.
    + destruct (default_model_fn w (model_dir context));
        [rewrite handle_ready by reflexivity|..]; reflexivity.
    + destruct (default_model_fn w (model_dir context)) as [m|e|n];
        [rewrite handle_ready by reflexivity|..].
      * split; [reflexivity|]. split; [reflexivity|].
        split; [intros m' [= <-]; reflexivity | intros e [=]].
      * split; [reflexivity|]. split; [reflexivity|].
        split; [intros m' [=] | intros e' [= <-]; split; [reflexivity|exact Hi]].
      * split; [reflexivity|]. split; [reflexivity|].
        split; [intros m' [=] | intros e' [=]].
Qed.

End lazy_initialization.

(** ** Which texts are numbers *)

Section number_texts.
Import Regex.

Lemma digit_char_digit d :
  0 <= d < 10 ->
  is_digit (Notebook.digit_char d) = true /\
  digit_value (Notebook.digit_char d) = d.
Proof.
  intros H.
  assert (Hd : d = 0 \/ d = 1 \/ d = 2 \/ d = 3 \/ d = 4 \/ d = 5 \/ d = 6
               \/ d = 7 \/ d = 8 \/ d = 9) by lia.
  repeat (destruct Hd as [-> | Hd]; [split; reflexivity|]).
  subst d. split; reflexivity.
Qed.

Lemma digits_value_snoc ds c :
  digits_value (ds ++ [c]) = digits_value ds * 10 + digit_value c.
Proof.
  rewrite digits_value_app. simpl length.
  change (digits_value [c]) with (10 * 0 + digit_value c). lia.
Qed.

(** with fuel for it, [digits_of] puts before [acc] the decimal digits of
    [n] *)
Lemma digits_of_spec fuel : forall n acc,
  0 <= n < 2 ^ Z.of_nat fuel -> (0 < fuel)%nat ->
  exists ds,
    Notebook.digits_of fuel n acc = ds ++ acc /\
    all_digits ds = true /\ digits_value ds = n.
Proof.
  induction fuel as [|fuel IH]; intros n acc Hn Hfuel; [lia|].
  cbn [Notebook.digits_of].
  assert (Hmod : 0 <= n mod 10 < 10) by (apply Z.mod_pos_bound; lia).
  destruct (digit_char_digit (n mod 10) Hmod) as [Hdig Hval].
  destruct (Z.ltb_spec n 10) as [Hsmall|Hbig].
  - exists [Notebook.digit_char (n mod 10)]. split; [reflexivity|].
    split.
    + simpl. rewrite Hdig. reflexivity.
    + change (digits_value [Notebook.digit_char (n mod 10)])
        with (10 * 0 + digit_value (Notebook.digit_char (n mod 10))).
      rewrite Hval, Z.mod_small; lia.
  - assert (Hq : 1 <= n / 10) by (apply Z.div_le_lower_bound; lia).
    assert (Hlt : n / 10 < 2 ^ Z.of_nat fuel).
    { rewrite Nat2Z.inj_succ, Z.pow_succ_r in Hn by lia.
      apply Z.div_lt_upper_bound; lia. }
    assert (Hpos : (0 < fuel)%nat).
    { destruct fuel; [simpl in Hlt; lia | lia]. }
    destruct (IH (n / 10) (Notebook.digit_char (n mod 10) :: acc))
      as (ds & Hds & Hall & Hv); [lia | exact Hpos |].
    exists (ds ++ [Notebook.digit_char (n mod 10)]).
    split; [rewrite Hds, <- app_assoc; reflexivity|]. split.
    + apply all_digits_iff in Hall as [Hne Hall].
      apply all_digits_iff. split; [destruct ds; discriminate|].
      rewrite forallb_app, Hall. simpl. rewrite Hdig. reflexivity.
    + rewrite digits_value_snoc, Hv, Hval.
      pose proof (Z.div_mod n 10). lia.
Qed.

Lemma digits_of_nonnegative n :
  0 <= n ->
  exists ds,
    Notebook.digits_of (S (Z.to_nat (Z.log2 n))) n [] = ds /\
    all_digits ds = true /\ digits_value ds = n.
Proof.
  intros Hn.
  destruct (digits_of_spec (S (Z.to_nat (Z.log2 n))) n [])
    as (ds & H & Ha & Hv).
  - split; [exact Hn|].
    rewrite Nat2Z.inj_succ, Z2Nat.id by apply Z.log2_nonneg.
    destruct (Z.eq_dec n 0) as [->|Hne]; [reflexivity|].
    apply Z.log2_spec. lia.
  - lia.
  - exists ds. rewrite H, app_nil_r. auto.
Qed.

(** a text that a pattern accepts begins with a digit *)
Lemma whole_number_head text ds :
  whole_number_text text ds ->
  exists c rest, text = String c rest /\ is_digit c = true.
Proof.
  intros [Hd Ht]. apply all_digits_iff in Hd as [Hne Hd].
  destruct ds as [|c ds]; [congruence|]. simpl in Hd.
  apply andb_true_iff in Hd as [Hc _].
  destruct text as [|c' rest]; [destruct Ht as [Ht|Ht]; discriminate|].
  exists c', rest. split; [reflexivity|].
  destruct Ht as [Ht|Ht]; simpl in Ht; injection Ht as -> _; exact Hc.
Qed.

Lemma decimal_head text ip fp :
  decimal_text text ip fp ->
  exists c rest, text = String c rest /\ is_digit c = true.
Proof.
  intros (Hip & _ & Ht). apply all_digits_iff in Hip as [Hne Hd].
  destruct ip as [|c ip]; [congruence|]. simpl in Hd.
  apply andb_true_iff in Hd as [Hc _].
  destruct text as [|c' rest]; [destruct Ht as [Ht|Ht]; discriminate|].
  exists c', rest. split; [reflexivity|].
  destruct Ht as [Ht|Ht]; simpl in Ht; injection Ht as -> _; exact Hc.
Qed.

Lemma not_digit_no_number c rest :
  is_digit c = false ->
  match_anchored Training.is_float (String c rest) = false /\
  match_anchored Training.is_integer (String c rest) = false.
Proof.
  intros Hc. split.
  - destruct (match_anchored Training.is_float (String c rest)) eqn:H;
      [|reflexivity].
    apply match_float_iff in H as (ip & fp & H).
    apply decimal_head in H as (c' & rest' & [= <- <-] & H). congruence.
  - destruct (match_anchored Training.is_integer (String c rest)) eqn:H;
      [|reflexivity].
    apply match_integer_iff in H as (ds & H).
    apply whole_number_head in H as (c' & rest' & [= <- <-] & H). congruence.
Qed.

(** X2.  The two patterns of the training script accept exactly the texts
    made of digits, and of digits, a dot and digits, each with at most one
    final newline; no text is accepted by both, so the order of the two
    tests decides nothing; and a text that does not begin with a digit (a
    sign, a blank, a dot first) is left as text, as is the empty text. *)
Theorem number_texts_exact (text : string) :
  (match_anchored Training.is_integer text = true <->
   exists ds, whole_number_text text ds) /\
  (match_anchored Training.is_float text = true <->
   exists ip fp, decimal_text text ip fp) /\
  (match_anchored Training.is_float text
   && match_anchored Training.is_integer text)%bool = false /\
  (forall c rest,
     text = String c rest -> is_digit c = false ->
     Training.coerce (JString text) = Ok (VStr text)) /\
  Training.coerce (JString EmptyString) = Ok (VStr EmptyString).
Proof.
  split; [apply match_integer_iff|]. split; [apply match_float_iff|].
  split; [apply patterns_disjoint|]. split; [|reflexivity].
  intros c rest -> Hc.
  destruct (not_digit_no_number c rest Hc) as [Hf Hi].
  apply coerce_text; assumption.
Qed.

Lemma py_str_int_nonnegative n :
  0 <= n -> Training.coerce (JString (Notebook.py_str_int n)) = Ok (VInt n).
Proof.
  intros Hn. unfold Notebook.py_str_int.
  destruct (Z.ltb_spec n 0) as [Hneg|_]; [lia|].
  destruct (digits_of_nonnegative n Hn) as (ds & -> & Hall & Hv).
  assert (Hw : whole_number_text (string_of_list_ascii ds) ds).
  { split; [exact Hall|]. left.
    apply list_ascii_of_string_of_list_ascii. }
  assert (Hi : match_anchored Training.is_integer (string_of_list_ascii ds)
               = true) by (apply match_integer_iff; eauto).
  pose proof (patterns_disjoint (string_of_list_ascii ds)) as Hd.
  rewrite Hi, andb_true_r in Hd.
  unfold Training.coerce.
  rewrite Hd, Hi, (py_int_whole _ ds Hw), Hv. reflexivity.
Qed.

Lemma py_str_int_negative n :
  n < 0 ->
  Training.coerce (JString (Notebook.py_str_int n))
  = Ok (VStr (Notebook.py_str_int n)).
Proof.
  intros Hn. unfold Notebook.py_str_int.
  destruct (Z.ltb_spec n 0) as [_|Hpos]; [|lia].
  destruct (not_digit_no_number "-"%char
              (string_of_list_ascii
                 (Notebook.digits_of (S (Z.to_nat (Z.log2 (- n)))) (- n) []))
              eq_refl) as [Hf Hi].
  apply coerce_text; assumption.
Qed.

(** X1.  Whole-number hyperparameters written by the notebook, which turns
    every value into text with [str], come back from the training script's
    loop as the same integers when they are not negative; a negative
    integer comes back as its text, not as a number. *)
Theorem notebook_integers_round_trip (hyperparameters : list (string * Z)) :
  NoDup (hyperparameters.*1) ->
  exists h : gmap string value,
    Training.coerce_all (Notebook.stringify hyperparameters) ∅ = Ok h /\
    forall key n, (key, n) ∈ hyperparameters ->
      h !! key = Some (if 0 <=? n then VInt n
                       else VStr (Notebook.py_str_int n)).
Proof.
  intros Hnd.
  assert (Hkeys : (Notebook.stringify hyperparameters).*1
                  = hyperparameters.*1).
  { unfold Notebook.stringify.
    induction hyperparameters as [|[k n] rest IH]; [reflexivity|].
    simpl. f_equal. apply IH. inversion Hnd; assumption. }
  destruct (coerce_all_lookup (Notebook.stringify hyperparameters) ∅)
    as (h & Hh & Hin & _).
  - rewrite Hkeys. exact Hnd.
  - intros key v Hkv. unfold Notebook.stringify in Hkv.
    apply list_elem_of_In, in_map_iff in Hkv as ([k n] & [= <- <-] & _).
    eauto.
  - exists h. split; [exact Hh|]. intros key n Hkn.
    destruct (Hin key (JString (Notebook.py_str_int n)))
      as (v & Hv & Hlook).
    { unfold Notebook.stringify. apply list_elem_of_In, in_map_iff.
      exists (key, n). split; [reflexivity|].
      apply list_elem_of_In. exact Hkn. }
    rewrite Hlook. f_equal.
    destruct (Z.leb_spec 0 n) as [Hpos|Hneg].
    + rewrite py_str_int_nonnegative in Hv by exact Hpos. congruence.
    + rewrite py_str_int_negative in Hv by exact Hneg. congruence.
Qed.

(** a value that is no text stops the loop *)
Lemma coerce_all_non_text (items : list (string * jvalue)) :
  forall (h0 : gmap string value) key,
    (key, JOther) ∈ items ->
    Training.coerce_all items h0
    = Raise (TypeError "expected string or bytes-like object").
Proof.
  induction items as [|[k v] rest IH]; intros h0 key Hin.
  - apply elem_of_nil in Hin. contradiction.
  - destruct v as [text|]; [|reflexivity].
    apply elem_of_cons in Hin as [[=]|Hin].
    cbn [Training.coerce_all].
    destruct (coerce_total text) as (v' & ->).
    apply (IH _ key Hin).
Qed.

End number_texts.

Section raw_values.
Context `{L : Libs}.

(** X3.  A hyperparameter file in which some value is not text (a JSON
    number, say, written without the notebook's [str]) stops the training
    script in its loop with a [TypeError], whatever the directories hold:
    nothing is listed, read or fitted, and [start] ends with the handler's
    [NameError]. *)
Theorem raw_hyperparameter_rejected (w : World) items key :
  files w !! "/opt/ml/input/config/hyperparameters.json"
    = Some (FJson items) ->
  (key, JOther) ∈ items ->
  Training.body Training.module_names (after_banner w)
  = (after_banner w,
     Raise (TypeError "expected string or bytes-like object")) /\
  Training.start w = (after_banner w, Raise (NameError "traceback")) /\
  fit_calls (fst (Training.start w)) = fit_calls w.
Proof.
  intros Hf Hin.
  assert (Hb : Training.body Training.module_names (after_banner w)
               = (after_banner w,
                  Raise (TypeError "expected string or bytes-like object"))).
  { unfold Training.body. set (w0 := after_banner w).
    rewrite (bind_ok _ _ w0 w0 tt) by (apply uses_ok; reflexivity).
    rewrite (bind_ok _ _ w0 w0 tt) by (apply uses_ok; reflexivity).
    change Training.param_path
      with "/opt/ml/input/config/hyperparameters.json".
    rewrite (bind_ok (read_file _) _ w0 w0 (FJson items))
      by (unfold read_file; subst w0; simpl; rewrite Hf; reflexivity).
    rewrite (bind_ok _ _ w0 w0 tt) by (apply uses_ok; reflexivity).
    rewrite (bind_ok _ _ w0 w0 items) by reflexivity.
    unfold bind at 1. unfold lift at 1.
    rewrite (coerce_all_non_text items ∅ key Hin). reflexivity. }
  split; [exact Hb|].
  rewrite (start_raises w _ _ Hb). split; reflexivity.
Qed.

End raw_values.

(** ** The paths through the training routine *)

Section training_paths.
Context `{L : Libs}.

(** reading CSV files reads: the world stays as it is, and the tables
    depend on the files alone *)
Lemma read_csv_reads path (w w' : World) :
  files w' = files w ->
  exists r, read_csv path w = (w, r) /\ read_csv path w' = (w', r).
Proof.
  intros Hf. unfold read_csv, bind, read_file. rewrite Hf.
  destruct (files w !! path) as [[object|[|row rows]|m|text]|];
    eexists; split; reflexivity.
Qed.

Lemma for_list_read_csv paths (w w' : World) :
  files w' = files w ->
  exists r, for_list paths read_csv w = (w, r) /\
            for_list paths read_csv w' = (w', r).
Proof.
  intros Hf. induction paths as [|path paths IH]; cbn [for_list].
  - eexists; split; reflexivity.
  - destruct (read_csv_reads path w w' Hf) as (r & Hr & Hr').
    destruct IH as (rs & Hrs & Hrs').
    unfold bind at 1 3. rewrite Hr, Hr'.
    destruct r as [table|e|n]; [|eexists; split; reflexivity..].
    unfold bind. rewrite Hrs, Hrs'.
    destruct rs as [tables|e|n]; eexists; split; reflexivity.
Qed.

Lemma for_list_read_csv_at paths (w w' : World) r :
  files w' = files w ->
  for_list paths read_csv w = (w, r) ->
  for_list paths read_csv w' = (w', r).
Proof.
  intros Hf H. destruct (for_list_read_csv paths w w' Hf) as (r' & Hr & Hr').
  rewrite Hr in H. injection H as <-. exact Hr'.
Qed.

Lemma body_after_loading (w : World) items h train_names validation_names
    train_tables validation_tables Y_train Y_validation :
  files w !! "/opt/ml/input/config/hyperparameters.json"
    = Some (FJson items) ->
  Training.coerce_all items ∅ = Ok h ->
  dirs w !! "/opt/ml/input/data/train" = Some train_names ->
  dirs w !! "/opt/ml/input/data/validation" = Some validation_names ->
  train_names <> [] -> validation_names <> [] ->
  for_list (map (path_join "/opt/ml/input/data/train") train_names)
    read_csv w = (w, Ok train_tables) ->
  for_list (map (path_join "/opt/ml/input/data/validation") validation_names)
    read_csv w = (w, Ok validation_tables) ->
  Training.first_column (concat train_tables) = Ok Y_train ->
  Training.first_column (concat validation_tables) = Ok Y_validation ->
  Training.body Training.module_names w
  = match set_params new_classifier (<["verbose" := VInt 1]> h) with
    | Ok estimator =>
        match fit estimator (Training.other_columns (concat train_tables))
                Y_train with
        | Ok model =>
            match score model
                    (Training.other_columns (concat validation_tables))
                    Y_validation with
            | Ok accuracy => (trained_world model accuracy w, Ok tt)
            | Raise e => (fitting w, Raise e)
            | Exit n => (fitting w, Exit n)
            end
        | Raise e => (fitting w, Raise e)
        | Exit n => (fitting w, Exit n)
        end
    | Raise e => (announced w, Raise e)
    | Exit n => (announced w, Exit n)
    end.
Proof.
  intros Hf Hc Ht Hv Hne Hnev Htr Hva Hy Hyv.
  unfold Training.body.
  rewrite (bind_ok _ _ w w tt) by (apply uses_ok; reflexivity).
  rewrite (bind_ok _ _ w w tt) by (apply uses_ok; reflexivity).
  change Training.param_path with "/opt/ml/input/config/hyperparameters.json".
  rewrite (bind_ok (read_file _) _ w w (FJson items))
    by (unfold read_file; rewrite Hf; reflexivity).
  rewrite (bind_ok _ _ w w tt) by (apply uses_ok; reflexivity).
  rewrite (bind_ok _ _ w w items) by reflexivity.
  rewrite (bind_ok _ _ w w h) by (unfold lift; rewrite Hc; reflexivity).
  rewrite (bind_ok _ _ w w tt) by (apply uses_ok; reflexivity).
  change (path_join Training.input_path "train")
    with "/opt/ml/input/data/train".
  change (path_join Training.input_path "validation")
    with "/opt/ml/input/data/validation".
  rewrite (bind_ok (listdir _) _ w w train_names)
    by (unfold listdir; rewrite Ht; reflexivity).
  rewrite (bind_ok (listdir _) _ w w validation_names)
    by (unfold listdir; rewrite Hv; reflexivity).
  rewrite (bind_ok _ _ w w tt) by (apply uses_ok; reflexivity).
  rewrite !length_map.
  assert (Hb : (Nat.eqb (length train_names) 0
                || Nat.eqb (length validation_names) 0)%bool = false).
  { destruct train_names; [congruence|].
    destruct validation_names; [congruence|]. reflexivity. }
  rewrite Hb.
  rewrite (bind_ok _ _ w w tt) by (apply uses_ok; reflexivity).
  rewrite (bind_ok _ _ w w train_tables) by exact Htr.
  rewrite (bind_ok _ _ w w validation_tables) by exact Hva.
  rewrite (bind_ok _ _ w w Y_train) by (unfold lift; rewrite Hy; reflexivity).
  rewrite (bind_ok _ _ w w Y_validation)
    by (unfold lift; rewrite Hyv; reflexivity).
  rewrite (bind_ok _ _ w w tt) by (apply uses_ok; reflexivity).
  rewrite (bind_ok _ _ w (announced w) tt) by reflexivity.
  rewrite (bind_ok _ _ (announced w) (announced w) tt)
    by (apply uses_ok; reflexivity).
  unfold bind at 1. unfold lift at 1.
  destruct (set_params new_classifier (<["verbose" := VInt 1]> h))
    as [estimator|e|n]; [|reflexivity..].
  rewrite (bind_ok _ _ (announced w) (fitting w) tt) by reflexivity.
  unfold bind at 1. unfold lift at 1.
  destruct (fit estimator _ Y_train) as [model|e|n]; [|reflexivity..].
  unfold bind at 1. unfold lift at 1.
  destruct (score model _ Y_validation) as [accuracy|e|n]; [|reflexivity..].
  rewrite (bind_ok (print _) _ (fitting w)
             (mkWorld (files w) (dirs w)
                ((stdout w ++ ["Training the classifier"])
                 ++ ["Score: " +:+ accuracy])
                (stderr w) (S (fit_calls w))) tt) by reflexivity.
  rewrite (bind_ok _ _ _ _ tt) by (apply uses_ok; reflexivity).
  reflexivity.
Qed.

(** X4.  When the hyperparameter file, or else the train directory, or else
    the validation directory does not exist, the statements under [try:]
    raise [FileNotFoundError] for that path, not the [ValueError] of the
    check for empty channels, with the world as it was; [start] then ends
    with the handler's [NameError]. *)
Theorem missing_input_is_file_not_found (w : World) (path : string) :
  missing_input (after_banner w) path ->
  Training.body Training.module_names (after_banner w)
  = (after_banner w, Raise (FileNotFoundError path)) /\
  Training.start w = (after_banner w, Raise (NameError "traceback")).
Proof.
  intros Hmiss. set (w0 := after_banner w) in *.
  assert (Hb : Training.body Training.module_names w0
               = (w0, Raise (FileNotFoundError path))).
  { unfold Training.body.
    rewrite (bind_ok _ _ w0 w0 tt) by (apply uses_ok; reflexivity).
    rewrite (bind_ok _ _ w0 w0 tt) by (apply uses_ok; reflexivity).
    change Training.param_path
      with "/opt/ml/input/config/hyperparameters.json".
    change (path_join Training.input_path "train")
      with "/opt/ml/input/data/train".
    change (path_join Training.input_path "validation")
      with "/opt/ml/input/data/validation".
    destruct Hmiss as [Hf|items h Hf Hc Ht|items h train_names Hf Hc Ht Hv].
    - unfold bind at 1. unfold read_file at 1. rewrite Hf. reflexivity.
    - rewrite (bind_ok (read_file _) _ w0 w0 (FJson items))
        by (unfold read_file; rewrite Hf; reflexivity).
      rewrite (bind_ok _ _ w0 w0 tt) by (apply uses_ok; reflexivity).
      rewrite (bind_ok _ _ w0 w0 items) by reflexivity.
      rewrite (bind_ok _ _ w0 w0 h) by (unfold lift; rewrite Hc; reflexivity).
      rewrite (bind_ok _ _ w0 w0 tt) by (apply uses_ok; reflexivity).
      unfold bind at 1. unfold listdir at 1. rewrite Ht. reflexivity.
    - rewrite (bind_ok (read_file _) _ w0 w0 (FJson items))
        by (unfold read_file; rewrite Hf; reflexivity).
      rewrite (bind_ok _ _ w0 w0 tt) by (apply uses_ok; reflexivity).
      rewrite (bind_ok _ _ w0 w0 items) by reflexivity.
      rewrite (bind_ok _ _ w0 w0 h) by (unfold lift; rewrite Hc; reflexivity).
      rewrite (bind_ok _ _ w0 w0 tt) by (apply uses_ok; reflexivity).
      rewrite (bind_ok (listdir _) _ w0 w0 train_names)
        by (unfold listdir; rewrite Ht; reflexivity).
      unfold bind at 1. unfold listdir at 1. rewrite Hv. reflexivity. }
  split; [exact Hb|]. apply (start_raises w _ _ Hb).
Qed.

(** X5.  With readable hyperparameters, two channels that list files, files
    that read as tables with a first column, and an estimator that accepts
    the parameters, fits and scores: [start] returns normally.  It has
    printed its three lines and nothing else, called [fit] once, on the
    features and labels of the train tables joined in the order of the
    listing, with the hyperparameters of the file and [verbose] set to 1;
    it has scored the model on the validation tables; and it has written
    that model to [iris_model.pkl] in the model directory and no other
    file. *)
Theorem training_success (w : World) items h train_names validation_names
    train_tables validation_tables Y_train Y_validation
    estimator model accuracy :
  files w !! "/opt/ml/input/config/hyperparameters.json"
    = Some (FJson items) ->
  Training.coerce_all items ∅ = Ok h ->
  dirs w !! "/opt/ml/input/data/train" = Some train_names ->
  dirs w !! "/opt/ml/input/data/validation" = Some validation_names ->
  train_names <> [] -> validation_names <> [] ->
  for_list (map (path_join "/opt/ml/input/data/train") train_names)
    read_csv w = (w, Ok train_tables) ->
  for_list (map (path_join "/opt/ml/input/data/validation") validation_names)
    read_csv w = (w, Ok validation_tables) ->
  Training.first_column (concat train_tables) = Ok Y_train ->
  Training.first_column (concat validation_tables) = Ok Y_validation ->
  set_params new_classifier (<["verbose" := VInt 1]> h) = Ok estimator ->
  fit estimator (Training.other_columns (concat train_tables)) Y_train
    = Ok model ->
  score model (Training.other_columns (concat validation_tables))
    Y_validation = Ok accuracy ->
  Training.start w
  = (mkWorld
       (<["/opt/ml/model/iris_model.pkl" := FPickle model]> (files w))
       (dirs w)
       (stdout w ++ ["Training mode"; "Training the classifier";
                     "Score: " +:+ accuracy])
       (stderr w) (S (fit_calls w)),
     Ok tt).
Proof.
  intros Hf Hc Ht Hv Hne Hnev Htr Hva Hy Hyv Hset Hfit Hscore.
  rewrite start_after_banner. unfold try_except.
  rewrite (body_after_loading (after_banner w) items h train_names
             validation_names train_tables validation_tables
             Y_train Y_validation); try assumption.
  - rewrite Hset, Hfit, Hscore. unfold trained_world, after_banner.
    cbn [files dirs stdout stderr fit_calls].
    rewrite <- !app_assoc. reflexivity.
  - apply (for_list_read_csv_at _ w); [reflexivity | exact Htr].
  - apply (for_list_read_csv_at _ w); [reflexivity | exact Hva].
Qed.

(** X6.  With the inputs read as above, when the estimator refuses the
    hyperparameters or [fit] raises, the training script has announced the
    classifier but printed no score and written no file, so no model
    artifact exists; [start] ends with the handler's [NameError]. *)
Theorem fitting_error_leaves_no_artifact (w : World) items h
    train_names validation_names train_tables validation_tables
    Y_train Y_validation (e : exn) :
  files w !! "/opt/ml/input/config/hyperparameters.json"
    = Some (FJson items) ->
  Training.coerce_all items ∅ = Ok h ->
  dirs w !! "/opt/ml/input/data/train" = Some train_names ->
  dirs w !! "/opt/ml/input/data/validation" = Some validation_names ->
  train_names <> [] -> validation_names <> [] ->
  for_list (map (path_join "/opt/ml/input/data/train") train_names)
    read_csv w = (w, Ok train_tables) ->
  for_list (map (path_join "/opt/ml/input/data/validation") validation_names)
    read_csv w = (w, Ok validation_tables) ->
  Training.first_column (concat train_tables) = Ok Y_train ->
  Training.first_column (concat validation_tables) = Ok Y_validation ->
  set_params new_classifier (<["verbose" := VInt 1]> h) = Raise e \/
  (exists estimator,
     set_params new_classifier (<["verbose" := VInt 1]> h) = Ok estimator /\
     fit estimator (Training.other_columns (concat train_tables)) Y_train
       = Raise e) ->
  exists w',
    Training.body Training.module_names (after_banner w) = (w', Raise e) /\
    Training.start w = (w', Raise (NameError "traceback")) /\
    files w' = files w /\
    stdout w' = stdout w ++ ["Training mode"; "Training the classifier"].
Proof.
  intros Hf Hc Ht Hv Hne Hnev Htr Hva Hy Hyv Herr.
  pose proof (body_after_loading (after_banner w) items h train_names
                validation_names train_tables validation_tables
                Y_train Y_validation Hf Hc Ht Hv Hne Hnev
                (for_list_read_csv_at _ w (after_banner w) _ eq_refl Htr)
                (for_list_read_csv_at _ w (after_banner w) _ eq_refl Hva)
                Hy Hyv) as Hb.
  destruct Herr as [Hset|(estimator & Hset & Hfit)].
  - rewrite Hset in Hb. exists (announced (after_banner w)).
    split; [exact Hb|]. split; [apply (start_raises w _ _ Hb)|].
    split; [reflexivity|].
    unfold announced, after_banner. cbn [stdout].
    rewrite <- app_assoc. reflexivity.
  - rewrite Hset, Hfit in Hb. exists (fitting (after_banner w)).
    split; [exact Hb|]. split; [apply (start_raises w _ _ Hb)|].
    split; [reflexivity|].
    unfold fitting, after_banner. cbn [stdout].
    rewrite <- app_assoc. reflexivity.
Qed.

(** the label column and the feature columns of a table *)
Lemma first_column_insert_label (X : list (list cell)) : forall y,
  length y = length X ->
  Training.first_column (Notebook.insert_label X y) = Ok y /\
  Training.other_columns (Notebook.insert_label X y) = X.
Proof.
  induction X as [|row X IH]; intros [|label y] Hlen; try discriminate.
  - split; reflexivity.
  - simpl in Hlen. injection Hlen as Hlen.
    destruct (IH y Hlen) as [Hfirst Hothers].
    cbn [Notebook.insert_label Training.first_column].
    rewrite Hfirst. split; [reflexivity|].
    unfold Training.other_columns in *. simpl. rewrite Hothers. reflexivity.
Qed.

Lemma insert_label_columns (rows : list (list cell)) : forall Y,
  Training.first_column rows = Ok Y ->
  length Y = length rows /\
  Notebook.insert_label (Training.other_columns rows) Y = rows.
Proof.
  induction rows as [|[|c row] rows IH]; intros Y H.
  - injection H as <-. split; reflexivity.
  - discriminate.
  - cbn [Training.first_column] in H.
    destruct (Training.first_column rows) as [cs|e|n]; try discriminate.
    injection H as <-. destruct (IH cs eq_refl) as [Hlen Hrows].
    split; [simpl; rewrite Hlen; reflexivity|].
    unfold Training.other_columns in *. simpl. rewrite Hrows. reflexivity.
Qed.

Lemma first_column_empty_row (rows : list (list cell)) :
  In [] rows ->
  Training.first_column rows
  = Raise (IndexError "single positional indexer is out-of-bounds").
Proof.
  induction rows as [|[|c row] rows IH]; intros Hin.
  - destruct Hin.
  - reflexivity.
  - destruct Hin as [Hin|Hin]; [discriminate|].
    cbn [Training.first_column]. rewrite (IH Hin). reflexivity.
Qed.

(** X7.  The notebook puts the label before the features of every row, and
    the training script takes the first column as labels and the rest as
    features: the split gives back exactly the labels and the features that
    were put together, one label per row; a table is put together again
    from its two parts; and a row without columns makes the split raise
    [IndexError]. *)
Theorem label_column_round_trip (X rows : list (list cell)) (y Y : list cell) :
  (length y = length X ->
   Training.first_column (Notebook.insert_label X y) = Ok y /\
   Training.other_columns (Notebook.insert_label X y) = X) /\
  (Training.first_column rows = Ok Y ->
   length Y = length rows /\
   length (Training.other_columns rows) = length rows /\
   Notebook.insert_label (Training.other_columns rows) Y = rows) /\
  (In [] rows ->
   Training.first_column rows
   = Raise (IndexError "single positional indexer is out-of-bounds")).
Proof.
  split; [apply first_column_insert_label|]. split.
  - intros H. destruct (insert_label_columns rows Y H) as [Hlen Hrows].
    split; [exact Hlen|]. split; [|exact Hrows].
    unfold Training.other_columns. apply length_map.
  - apply first_column_empty_row.
Qed.

(** X8.  The dispatcher looks at its first argument only: whatever follows
    it on the command line changes nothing. *)
Theorem dispatcher_reads_first_argument_only (prog arg : string)
    (rest : list string) (p : Inference.Process) :
  Inference.main (prog :: arg :: rest) p = Inference.main [prog; arg] p.
Proof.
  destruct (String.eqb_spec arg "train") as [->|Htrain].
  - rewrite (main_train (prog :: "train" :: rest) p eq_refl).
    rewrite (main_train [prog; "train"] p eq_refl). reflexivity.
  - destruct (String.eqb_spec arg "serve") as [->|Hserve].
    + rewrite (main_serve (prog :: "serve" :: rest) p eq_refl).
      rewrite (main_serve [prog; "serve"] p eq_refl). reflexivity.
    + rewrite !main_usage; simpl; congruence.
Qed.

End training_paths.

(** ** Requests beyond the single well-formed row *)

Section serving_edges.
Context `{L : Libs} {Laws : LibsLaws L}.
Import Inference.

Lemma csv_row_no_newline (row : list cell) :
  occurs newline (String.concat "," (map show_cell row)) = false.
Proof.
  apply occurs_concat; [apply Forall_show, show_no_newline | reflexivity].
Qed.

Lemma parse_lines_rows (rows : list (list cell)) :
  Forall (fun row => row <> []) rows ->
  parse_lines
    (map (fun row => String.concat "," (map show_cell row)) rows)
  = Ok rows.
Proof.
  induction 1 as [|row rows Hrow _ IH]; [reflexivity|].
  cbn [map parse_lines].
  rewrite split_on_concat;
    [|destruct row; [congruence|discriminate]
     |apply Forall_show, show_no_comma].
  rewrite parse_cells_show, IH. reflexivity.
Qed.

Lemma filter_nonempty_rows (rows : list (list cell)) :
  Forall (fun row => row <> []) rows ->
  List.filter nonempty
    (map (fun row => String.concat "," (map show_cell row)) rows)
  = map (fun row => String.concat "," (map show_cell row)) rows.
Proof.
  induction 1 as [|row rows Hrow _ IH]; [reflexivity|].
  cbn [map List.filter].
  destruct row as [|c row]; [congruence|].
  rewrite csv_row_nonempty, IH. reflexivity.
Qed.

Lemma parse_csv_lines (rows : list (list cell)) :
  rows <> [] ->
  Forall (fun row => row <> []) rows ->
  parse_lines (List.filter nonempty (split_on newline (csv_lines rows)))
  = Ok rows.
Proof.
  intros Hne Hrows. unfold csv_lines, nl.
  rewrite split_on_concat.
  - rewrite filter_nonempty_rows by exact Hrows.
    apply parse_lines_rows, Hrows.
  - destruct rows; [congruence|discriminate].
  - clear Hne Hrows. induction rows as [|row rows IH]; simpl; constructor;
      [apply csv_row_no_newline | exact IH].
Qed.

(** X9.  The input function does not refuse a payload of several rows: it
    flattens the table into one sample that holds all numbers, row after
    row, so the model is asked once and every request yields one label. *)
Theorem payload_rows_flattened (rows : list (list cell)) (width : nat)
    (m : Model) (ys : list cell) (s : Service) :
  rows <> [] ->
  Forall (fun row => row <> [] /\ length row = width) rows ->
  predict m [concat rows] = Ok ys ->
  let payload := mkArray [1%nat; length (concat rows)] (concat rows) in
  default_input_fn (csv_lines rows) "text/csv" = Ok payload /\
  exists label,
    ys = [label] /\
    transform_fn m (csv_lines rows) "text/csv" "text/csv" s
    = (log_predict payload s, Ok (show_cell label +:+ nl)).
Proof.
  intros Hne Hrows Hp payload.
  assert (Hnonempty : Forall (fun row => row <> []) rows)
    by (eapply Forall_impl; [exact Hrows|]; intros row [H _]; exact H).
  assert (Hin : default_input_fn (csv_lines rows) "text/csv" = Ok payload).
  { unfold default_input_fn, decoder_decode, csv_to_numpy.
    change (("text/csv" =? "text/csv")%string) with true.
    cbn [negb]. cbv iota.
    rewrite (parse_csv_lines rows Hne Hnonempty). cbn [rbind].
    destruct rows as [|row rows]; [congruence|].
    assert (Hrect : forallb (fun r' => Nat.eqb (length r') (length row))
                      (row :: rows) = true).
    { apply forallb_forall. intros r Hr.
      apply Nat.eqb_eq.
      assert (Hw : forall r', In r' (row :: rows) -> length r' = width).
      { intros r' Hr'. rewrite Forall_forall in Hrows.
        apply list_elem_of_In in Hr'. apply (Hrows r' Hr'). }
      rewrite (Hw r Hr), (Hw row (or_introl eq_refl)). reflexivity. }
    rewrite Hrect. reflexivity. }
  split; [exact Hin|].
  destruct (predict_one_row m (concat rows) ys Hp) as [label ->].
  exists label. split; [reflexivity|].
  rewrite transform_fn_steps, Hin.
  unfold model_predict, payload. cbn [shape data].
  rewrite chunks_one_row, Hp. reflexivity.
Qed.

(** X10.  While the model directory holds no [iris_model.pkl], every
    invocation of [handle] on a service that is not initialized, with a
    request or without one, raises [FileNotFoundError] for that file after
    one call of [initialize] and one attempt to load; the service stays
    uninitialized, so the next invocation tries again. *)
Theorem missing_artifact_fails_every_invocation (w : World)
    (context : Context) (data next : option Request) (s : Service) :
  initialized s = false ->
  files w !! path_join (model_dir context) "iris_model.pkl" = None ->
  let failure :=
    Raise (FileNotFoundError (path_join (model_dir context) "iris_model.pkl"))
  in
  handle w data context s
  = (count_model_load (count_initialize s), failure) /\
  initialized (fst (handle w data context s)) = false /\
  handle w next context (fst (handle w data context s))
  = (count_model_load
       (count_initialize (count_model_load (count_initialize s))),
     failure).
Proof.
  intros Hi Hfile failure.
  assert (Hload : default_model_fn w (model_dir context)
                  = Raise (FileNotFoundError
                             (path_join (model_dir context) "iris_model.pkl")))
    by (unfold default_model_fn; rewrite Hfile; reflexivity).
  assert (Hstep : forall d s', initialized s' = false ->
            handle w d context s'
            = (count_model_load (count_initialize s'), failure)).
  { intros d s' Hs'. rewrite handle_fresh by exact Hs'.
    rewrite Hload. reflexivity. }
  rewrite (Hstep data s Hi). cbn [fst].
  split; [reflexivity|]. split; [exact Hi|].
  apply Hstep. exact Hi.
Qed.

(** X11.  A request that fails does not harm the service: after any
    invocation on an initialized service, accepted or rejected, the service
    is initialized with the same model, and a well-formed request that
    follows is answered with the label the model predicts for its row. *)
Theorem service_survives_any_request (w : World) (context : Context)
    (m : Model) (s : Service) (previous : option Request)
    (row ys : list cell) :
  initialized s = true ->
  loaded_model s = Some m ->
  predict m [row] = Ok ys ->
  let s' := fst (handle w previous context s) in
  initialized s' = true /\
  loaded_model s' = Some m /\
  exists label,
    ys = [label] /\
    snd (handle w
           (Some (mkRequest (String.concat "," (map show_cell row))
                    "text/csv" "text/csv"))
           context s')
    = Ok (Some (show_cell label +:+ nl)).
Proof.
  intros Hi Hm Hp s'.
  destruct (handle_ready_state w previous context s Hi) as (Hi' & Hm' & _).
  fold s' in Hi', Hm'. rewrite Hm in Hm'.
  split; [exact Hi'|]. split; [exact Hm'|].
  destruct (predict_one_row m row ys Hp) as [label ->].
  exists label. split; [reflexivity|].
  rewrite handle_ready by exact Hi'. rewrite Hm'.
  cbn [body content_type accept]. unfold bind.
  rewrite transform_fn_steps, input_fn_row.
  unfold model_predict. cbn [shape data].
  rewrite chunks_one_row, Hp. reflexivity.
Qed.

(** X12.  Training, then serving: after a training run that returned
    normally, the first request to a fresh handler service whose model
    directory is [/opt/ml/model] loads the model that the run saved, and a
    well-formed request for a row is answered with the label which that
    model predicts for the row. *)
Theorem trained_model_serves (w : World) (row : list cell) :
  snd (Training.start w) = Ok tt ->
  exists m : Model,
    files (fst (Training.start w)) !! "/opt/ml/model/iris_model.pkl"
      = Some (FPickle m) /\
    forall ys, predict m [row] = Ok ys ->
      exists label,
        ys = [label] /\
        handle (fst (Training.start w))
          (Some (mkRequest (String.concat "," (map show_cell row))
                   "text/csv" "text/csv"))
          (mkContext Training.model_path) fresh_service
        = (log_predict (mkArray [1%nat; length row] row)
             (count_transform
                (set_loaded m
                   (count_model_load (count_initialize fresh_service)))),
           Ok (Some (show_cell label +:+ nl))).
Proof.
  intros Hok.
  destruct (Training.start w) as [w' r] eqn:Hs. simpl in Hok. subst r.
  destruct (start_leaves_model w w' Hs) as [m Hm].
  exists m. cbn [fst]. split; [exact Hm|].
  intros ys Hp.
  destruct (predict_one_row m row ys Hp) as [label ->].
  exists label. split; [reflexivity|].
  assert (Hload : default_model_fn w' (model_dir (mkContext Training.model_path))
                  = Ok m).
  { unfold default_model_fn. cbn [model_dir].
    change (path_join Training.model_path "iris_model.pkl")
      with "/opt/ml/model/iris_model.pkl".
    rewrite Hm. reflexivity. }
  rewrite handle_fresh by reflexivity. rewrite Hload.
  rewrite handle_ready by reflexivity.
  cbn [loaded_model set_loaded body content_type accept]. unfold bind.
  rewrite transform_fn_steps, input_fn_row.
  unfold model_predict. cbn [shape data].
  rewrite chunks_one_row, Hp. reflexivity.
Qed.

End serving_edges.

(** ** The theorems at the sample instance *)

Import Sample.

Lemma sample_laws : LibsLaws Sample.libs.
Proof.
  constructor.
  - intros m X ys [= <-]. apply length_map.
  - intros []; reflexivity.
  - intros []; discriminate.
  - intros []; reflexivity.
Qed.

Lemma content_type_rejected_witness :
  Inference.transform_fn (∅ : @Model Sample.libs)
    "[1.0, 2.0, 0.0, 1.0]" "application/json" "text/csv"
    Inference.fresh_service
  = (Inference.fresh_service,
     Raise (Exception "Invalid content-type: application/json")).
Proof.
  apply (content_type_rejected Sample.trained Sample.context
           (∅ : @Model Sample.libs) Sample.json_request
           Inference.fresh_service).
  discriminate.
Defined.

Lemma accept_rejected_witness :
  Inference.transform_fn (∅ : @Model Sample.libs) "1.0,2.0,0.0,1.0"
    "text/csv" "application/json" Inference.fresh_service
  = (Inference.log_predict
       (Inference.mkArray [1%nat; 4%nat] Sample.features)
       Inference.fresh_service,
     Raise (Exception "Invalid accept: application/json")) /\
  Inference.predict_log
    (Inference.log_predict
       (Inference.mkArray [1%nat; 4%nat] Sample.features)
       Inference.fresh_service)
  = Inference.predict_log Inference.fresh_service
    ++ [Inference.mkArray [1%nat; 4%nat] Sample.features].
Proof.
  apply (accept_rejected (∅ : @Model Sample.libs) "1.0,2.0,0.0,1.0"
           "text/csv" "application/json" Inference.fresh_service)
    with (prediction := [Sample.n1]).
  - discriminate.
  - reflexivity.
  - reflexivity.
Defined.

Lemma csv_round_trip_witness :
  exists label : Sample.num,
    [Sample.n1] = [label] /\
    Inference.default_input_fn (L := Sample.libs) "1.0,2.0,0.0,1.0" "text/csv"
    = Ok (Inference.mkArray [1%nat; 4%nat] Sample.features) /\
    Inference.csv_to_numpy (show_cell label +:+ nl)
    = Ok (Inference.mkArray [] [label]) /\
    Inference.handle Sample.trained (Some Sample.csv_request) Sample.context
      (Inference.set_loaded (∅ : @Model Sample.libs) Inference.fresh_service)
    = (Inference.log_predict
         (Inference.mkArray [1%nat; 4%nat] Sample.features)
         (Inference.count_transform
            (Inference.set_loaded (∅ : @Model Sample.libs)
               Inference.fresh_service)),
       Ok (Some (show_cell label +:+ nl))).
Proof.
  destruct (csv_round_trip (Laws := sample_laws) Sample.trained Sample.context
              (∅ : @Model Sample.libs) Sample.features [Sample.n1]
              (Inference.set_loaded (∅ : @Model Sample.libs)
                 Inference.fresh_service) eq_refl)
    as (label & Hlabel & Hinput & _ & Hdecode & Hhandle).
  exists label.
  split; [exact Hlabel|]. split; [exact Hinput|]. split; [exact Hdecode|].
  exact (Hhandle eq_refl eq_refl).
Defined.

Lemma lazy_initialization_once_witness :
  Inference.initialize_calls
    (fst (Inference.serve Sample.trained Sample.context
            [None; Some Sample.csv_request; Some Sample.wants_json]
            Inference.fresh_service)) = 1%nat /\
  Inference.model_loads
    (fst (Inference.serve Sample.trained Sample.context
            [None; Some Sample.csv_request; Some Sample.wants_json]
            Inference.fresh_service)) = 1%nat /\
  exists n,
    map fst
      (snd (Inference.serve Sample.trained Sample.context
              [None; Some Sample.csv_request; Some Sample.wants_json]
              Inference.fresh_service))
    = false :: repeat true n /\
    (n <= 2)%nat /\
    forall m,
      Inference.default_model_fn Sample.trained "/opt/ml/model" = Ok m ->
      n = 2%nat /\
      Inference.initialized
        (fst (Inference.serve Sample.trained Sample.context
                [None; Some Sample.csv_request; Some Sample.wants_json]
                Inference.fresh_service)) = true /\
      Inference.loaded_model
        (fst (Inference.serve Sample.trained Sample.context
                [None; Some Sample.csv_request; Some Sample.wants_json]
                Inference.fresh_service)) = Some m.
Proof.
  apply (proj2 (proj2 (lazy_initialization_once Sample.trained Sample.context
           [None; Some Sample.csv_request; Some Sample.wants_json]))
           None [Some Sample.csv_request; Some Sample.wants_json]).
  reflexivity.
Defined.

Lemma none_payload_skips_transformer_witness :
  Inference.handle Sample.trained None Sample.context
    (Inference.set_loaded (∅ : @Model Sample.libs) Inference.fresh_service)
  = (Inference.set_loaded (∅ : @Model Sample.libs) Inference.fresh_service,
     Ok None).
Proof.
  apply (none_payload_skips_transformer Sample.trained Sample.context
           (Inference.set_loaded (∅ : @Model Sample.libs)
              Inference.fresh_service)).
  reflexivity.
Defined.

Lemma notebook_integers_round_trip_witness :
  exists h : gmap string value,
    Training.coerce_all (Notebook.stringify Cases.all_cores) ∅ = Ok h /\
    forall key n, (key, n) ∈ Cases.all_cores ->
      h !! key = Some (if 0 <=? n then VInt n
                       else VStr (Notebook.py_str_int n)).
Proof.
  apply (notebook_integers_round_trip Cases.all_cores).
  unfold Cases.all_cores. simpl.
  repeat (apply NoDup_cons; split;
          [rewrite ?elem_of_cons, elem_of_nil; intuition discriminate|]).
  apply NoDup_nil_2.
Defined.

Lemma number_texts_exact_witness :
  Training.coerce (JString "-1") = Ok (VStr "-1").
Proof.
  apply (proj1 (proj2 (proj2 (proj2 (number_texts_exact "-1"))))
           "-"%char "1"); reflexivity.
Defined.

Lemma raw_hyperparameter_rejected_witness :
  Training.body Training.module_names (after_banner Cases.raw_hyperparameters)
  = (after_banner Cases.raw_hyperparameters,
     Raise (TypeError "expected string or bytes-like object")) /\
  Training.start Cases.raw_hyperparameters
  = (after_banner Cases.raw_hyperparameters, Raise (NameError "traceback")) /\
  fit_calls (fst (Training.start Cases.raw_hyperparameters)) = 0%nat.
Proof.
  apply (raw_hyperparameter_rejected Cases.raw_hyperparameters
           [("max_depth", JString "11"); ("n_jobs", JOther)] "n_jobs").
  - reflexivity.
  - apply elem_of_cons. right. apply elem_of_cons. left. reflexivity.
Defined.

Lemma missing_input_is_file_not_found_witness :
  Training.body Training.module_names (after_banner Cases.no_train_directory)
  = (after_banner Cases.no_train_directory,
     Raise (FileNotFoundError "/opt/ml/input/data/train")) /\
  Training.start Cases.no_train_directory
  = (after_banner Cases.no_train_directory, Raise (NameError "traceback")).
Proof.
  apply (missing_input_is_file_not_found Cases.no_train_directory).
  apply (missing_train _ Sample.hyperparameters
           (<["n_estimators" := VInt 120]>
              (<["n_jobs" := VInt 5]> (<["max_depth" := VInt 11]> ∅))));
    reflexivity.
Defined.

Lemma training_success_witness :
  Training.start Sample.local_test
  = (mkWorld
       (<["/opt/ml/model/iris_model.pkl" :=
            FPickle (<["verbose" := VInt 1]>
                       (<["n_estimators" := VInt 120]>
                          (<["n_jobs" := VInt 5]>
                             (<["max_depth" := VInt 11]> ∅))))]>
          (files Sample.local_test))
       (dirs Sample.local_test)
       ["Training mode"; "Training the classifier"; "Score: 1.0"]
       [] 1%nat,
     Ok tt).
Proof.
  apply (training_success Sample.local_test Sample.hyperparameters
           (<["n_estimators" := VInt 120]>
              (<["n_jobs" := VInt 5]> (<["max_depth" := VInt 11]> ∅)))
           ["training.csv"] ["validation.csv"]
           [Sample.training_csv] [Sample.validation_csv]
           [n0; n1; n2] [n1; n0]
           (<["verbose" := VInt 1]>
              (<["n_estimators" := VInt 120]>
                 (<["n_jobs" := VInt 5]> (<["max_depth" := VInt 11]> ∅))))
           (<["verbose" := VInt 1]>
              (<["n_estimators" := VInt 120]>
                 (<["n_jobs" := VInt 5]> (<["max_depth" := VInt 11]> ∅))))
           "1.0");
    first [reflexivity | discriminate].
Defined.

Lemma fitting_error_leaves_no_artifact_witness :
  exists w' : @World Cases.strict_libs,
    @Training.body Cases.strict_libs Training.module_names
      (after_banner Cases.unknown_hyperparameter)
    = (w', Raise (ValueError "Invalid parameter for estimator")) /\
    @Training.start Cases.strict_libs Cases.unknown_hyperparameter
    = (w', Raise (NameError "traceback")) /\
    files w' = files Cases.unknown_hyperparameter /\
    stdout w' = [] ++ ["Training mode"; "Training the classifier"].
Proof.
  apply (@fitting_error_leaves_no_artifact Cases.strict_libs
           Cases.unknown_hyperparameter [("depth", JString "3")]
           (<["depth" := VInt 3]> ∅)
           ["training.csv"] ["validation.csv"]
           [Sample.training_csv] [Sample.validation_csv]
           [n0; n1; n2] [n1; n0]
           (ValueError "Invalid parameter for estimator"));
    first [reflexivity | discriminate | left; reflexivity].
Defined.

Lemma label_column_round_trip_witness :
  Training.first_column (L := Sample.libs)
    (Notebook.insert_label [[n1; n2]; [n0; n0]] [n2; n1]) = Ok [n2; n1] /\
  Training.other_columns (L := Sample.libs)
    (Notebook.insert_label [[n1; n2]; [n0; n0]] [n2; n1])
  = [[n1; n2]; [n0; n0]].
Proof.
  apply (label_column_round_trip (L := Sample.libs)
           [[n1; n2]; [n0; n0]] [] [n2; n1] []).
  reflexivity.
Defined.

Lemma payload_rows_flattened_witness :
  Inference.default_input_fn (L := Sample.libs)
    (csv_lines Cases.two_rows) "text/csv"
  = Ok (Inference.mkArray [1%nat; 4%nat] [n1; n2; n0; n1]) /\
  exists label : Sample.num,
    [n1] = [label] /\
    Inference.transform_fn (∅ : @Model Sample.libs)
      (csv_lines Cases.two_rows) "text/csv" "text/csv" Cases.ready
    = (Inference.log_predict
         (Inference.mkArray [1%nat; 4%nat] [n1; n2; n0; n1]) Cases.ready,
       Ok (show_cell label +:+ nl)).
Proof.
  apply (payload_rows_flattened (Laws := sample_laws) Cases.two_rows 2%nat
           (∅ : @Model Sample.libs) [n1] Cases.ready).
  - discriminate.
  - repeat constructor; discriminate.
  - reflexivity.
Defined.

Lemma missing_artifact_fails_every_invocation_witness :
  Inference.handle Sample.local_test None Sample.context
    Inference.fresh_service
  = (Inference.count_model_load
       (Inference.count_initialize Inference.fresh_service),
     Raise (FileNotFoundError "/opt/ml/model/iris_model.pkl")) /\
  Inference.initialized
    (fst (Inference.handle Sample.local_test None Sample.context
            Inference.fresh_service)) = false /\
  Inference.handle Sample.local_test (Some Sample.csv_request) Sample.context
    (fst (Inference.handle Sample.local_test None Sample.context
            Inference.fresh_service))
  = (Inference.count_model_load
       (Inference.count_initialize
          (Inference.count_model_load
             (Inference.count_initialize Inference.fresh_service))),
     Raise (FileNotFoundError "/opt/ml/model/iris_model.pkl")).
Proof.
  apply (missing_artifact_fails_every_invocation Sample.local_test
           Sample.context None (Some Sample.csv_request)
           Inference.fresh_service);
    reflexivity.
Defined.

Lemma service_survives_any_request_witness :
  Inference.initialized
    (fst (Inference.handle Sample.trained (Some Sample.json_request)
            Sample.context Cases.ready)) = true /\
  Inference.loaded_model
    (fst (Inference.handle Sample.trained (Some Sample.json_request)
            Sample.context Cases.ready)) = Some ∅ /\
  exists label : Sample.num,
    [n1] = [label] /\
    snd (Inference.handle Sample.trained
           (Some (Inference.mkRequest
                    (String.concat "," (map show_cell Sample.features))
                    "text/csv" "text/csv"))
           Sample.context
           (fst (Inference.handle Sample.trained (Some Sample.json_request)
                   Sample.context Cases.ready)))
    = Ok (Some (show_cell label +:+ nl)).
Proof.
  apply (service_survives_any_request (Laws := sample_laws) Sample.trained
           Sample.context (∅ : @Model Sample.libs) Cases.ready
           (Some Sample.json_request) Sample.features [n1]);
    reflexivity.
Defined.

Lemma trained_model_serves_witness :
  exists m : @Model Sample.libs,
    files (fst (Training.start Sample.local_test))
      !! "/opt/ml/model/iris_model.pkl" = Some (FPickle m) /\
    forall ys, predict m [Sample.features] = Ok ys ->
      exists label,
        ys = [label] /\
        Inference.handle (fst (Training.start Sample.local_test))
          (Some (Inference.mkRequest
                   (String.concat "," (map show_cell Sample.features))
                   "text/csv" "text/csv"))
          (Inference.mkContext Training.model_path) Inference.fresh_service
        = (Inference.log_predict
             (Inference.mkArray [1%nat; length Sample.features]
                Sample.features)
             (Inference.count_transform
                (Inference.set_loaded m
                   (Inference.count_model_load
                      (Inference.count_initialize
                         Inference.fresh_service)))),
           Ok (Some (show_cell label +:+ nl))).
Proof.
  apply (trained_model_serves (Laws := sample_laws) Sample.local_test
           Sample.features).
  reflexivity.
Defined.
